(** * AI-Article-Summarizer: the summarisation pipeline of [main.py]
      and its self-hosted variant [rnd/gemma_crawl.py]

    A shallow embedding of the fetch / normalise / prompt / parse pipeline,
    followed by the properties the specification states about it.

    Conventions.
    - A Python [str] is a list of Unicode code points ([pystr]); [len] is
      [length].  Literals of the source are ASCII and written [py "..."].
    - A Python call either returns or raises: [result].  The type [exn]
      holds instances of [Exception]; process signals that derive only from
      [BaseException] (keyboard interrupt, interpreter exit, task
      cancellation) are not errors of a pipeline stage and are not modelled.
    - The network collaborators (headless crawler, HTTP client, generation
      endpoint) are oracles of a [world]; every call is logged as an [event],
      so that "no network call was made" is a statement about the log.
    - Library functions the source calls ([str.strip], [re.sub] on the two
      fence patterns, [json.loads], pydantic validation, BeautifulSoup tree
      operations) are modelled after the behaviour of the libraries;
      interpreter resource limits (recursion depth, integer digit limit) are
      not modelled. *)

From Stdlib Require Import String Ascii.
From Stdlib Require Import List ZArith NArith Lia Bool.
Import ListNotations.

(* ================================================================== *)
(** * Python strings *)
(* ================================================================== *)

Module PyStr.

Definition pychar := N.
Definition pystr := list pychar.

Definition ch (a : ascii) : pychar := N_of_ascii a.
Definition py (s : string) : pystr := map N_of_ascii (list_ascii_of_string s).

Definition dquote : pychar := 34%N.
Definition backslash : pychar := 92%N.
Definition backtick : pychar := 96%N.
Definition newline : pychar := 10%N.

Local Open Scope N_scope.

(** [str.isspace] for one code point; also the class [\s] of [re] on [str]
    patterns. *)
Definition isspace (c : pychar) : bool :=
  ((9 <=? c) && (c <=? 13)) || ((28 <=? c) && (c <=? 32))
  || (c =? 133) || (c =? 160) || (c =? 5760)
  || ((8192 <=? c) && (c <=? 8202))
  || (c =? 8232) || (c =? 8233) || (c =? 8239) || (c =? 8287) || (c =? 12288).

Local Close Scope N_scope.

Fixpoint lstrip (s : pystr) : pystr :=
  match s with
  | c :: r => if isspace c then lstrip r else s
  | [] => []
  end.

Definition rstrip (s : pystr) : pystr := rev (lstrip (rev s)).

(** [s.strip()] *)
Definition strip (s : pystr) : pystr := rstrip (lstrip s).

Definition pystr_eqb (a b : pystr) : bool :=
  if list_eq_dec N.eq_dec a b then true else false.

(** [s.startswith(p)] *)
Fixpoint startswith (p s : pystr) : bool :=
  match p, s with
  | [], _ => true
  | a :: p', b :: s' => N.eqb a b && startswith p' s'
  | _ :: _, [] => false
  end.

(** [s.endswith(p)] *)
Definition endswith (p s : pystr) : bool := startswith (rev p) (rev s).

(** [s.find(c)] for a one-character needle: the least index, or -1. *)
Fixpoint find (c : pychar) (s : pystr) : Z :=
  match s with
  | [] => (-1)%Z
  | x :: r => if N.eqb x c then 0%Z
              else let i := find c r in
                   if (i <? 0)%Z then (-1)%Z else (i + 1)%Z
  end.

(** [s.rfind(c)] for a one-character needle: the greatest index, or -1. *)
Definition rfind (c : pychar) (s : pystr) : Z :=
  let i := find c (rev s) in
  if (i <? 0)%Z then (-1)%Z else (Z.of_nat (length s) - 1 - i)%Z.

(** [s[a:b]] for indices [0 <= a]; (the source slices only under the guard
    [start != -1 and end > start]). *)
Definition slice (s : pystr) (a b : Z) : pystr :=
  firstn (Z.to_nat (b - a)) (skipn (Z.to_nat a) s).

(** [sep.join(parts)] *)
Fixpoint join (sep : pystr) (parts : list pystr) : pystr :=
  match parts with
  | [] => []
  | [p] => p
  | p :: rest => p ++ sep ++ join sep rest
  end.

End PyStr.
Import PyStr.

(* ================================================================== *)
(** * Results and exceptions *)
(* ================================================================== *)

(** The exception classes the pipeline can meet.  [JSONDecodeError] comes
    from [json], [ValidationError] from pydantic, [HTTPStatusError] from
    [raise_for_status]; the four built-in ones from subscripting, attribute
    access and [**] on the decoded reply; [ExternalError] stands for whatever
    a collaborator raises (transport errors, time-outs, renderer crashes),
    identified by its class name and its text. *)
Inductive schema_issue := Missing | StringType.

Inductive exn :=
| JSONDecodeError
| ValidationError (errors : list (pystr * schema_issue))
| KeyError
| IndexError
| TypeError
| AttributeError
| HTTPStatusError (status : Z)
| ExternalError (class_name : pystr) (text : pystr).

Inductive result (A : Type) :=
| Ret (a : A)
| Raise (e : exn).
Arguments Ret {A} a.
Arguments Raise {A} e.



(* ================================================================== *)
(** * [json.loads] *)
(* ================================================================== *)

Module Json.

(** What [json.loads] builds: [dict], [list], [str], [int], [float], [bool],
    [None].  A [float] is kept as the text it was read from (also for the
    literals NaN, Infinity and -Infinity that Python accepts); a [dict]
    keeps insertion order. *)
#[warnings="-register-all"]
Inductive json :=
| JNull
| JBool (b : bool)
| JInt (z : Z)
| JFloat (lexeme : pystr)
| JStr (s : pystr)
| JList (items : list json)
| JDict (pairs : list (pystr * json)).

(** [d[k] = v] on a [dict]: a present key keeps its position. *)
Fixpoint dict_set (d : list (pystr * json)) (k : pystr) (v : json)
  : list (pystr * json) :=
  match d with
  | [] => [(k, v)]
  | (k', v') :: r =>
      if pystr_eqb k' k then (k', v) :: r else (k', v') :: dict_set r k v
  end.

(** [d.get(k)] *)
Fixpoint dict_get (d : list (pystr * json)) (k : pystr) : option json :=
  match d with
  | [] => None
  | (k', v) :: r => if pystr_eqb k' k then Some v else dict_get r k
  end.

(** Outcome of scanning at a position: a value and the text after it, a
    syntax error, or a nesting deeper than the recursion budget. *)
Inductive scanned (A : Type) :=
| Got (a : A) (rest : pystr)
| Bad
| Deep.
Arguments Got {A} a rest.
Arguments Bad {A}.
Arguments Deep {A}.

Local Open Scope N_scope.

(** JSON white space: space, tab, line feed, carriage return. *)
Definition is_ws (c : pychar) : bool :=
  (c =? 32) || (c =? 9) || (c =? 10) || (c =? 13).

Fixpoint skip_ws (s : pystr) : pystr :=
  match s with
  | c :: r => if is_ws c then skip_ws r else s
  | [] => []
  end.

Definition is_digit (c : pychar) : bool := (48 <=? c) && (c <=? 57).

Definition hex_val (c : pychar) : option N :=
  if (48 <=? c) && (c <=? 57) then Some (c - 48)
  else if (97 <=? c) && (c <=? 102) then Some (c - 87)
  else if (65 <=? c) && (c <=? 70) then Some (c - 55)
  else None.

(** The four hexadecimal digits of a [\uXXXX] escape. *)
Definition hex4 (a b c d : pychar) : option N :=
  match hex_val a, hex_val b, hex_val c, hex_val d with
  | Some x, Some y, Some z, Some w => Some (((x * 16 + y) * 16 + z) * 16 + w)
  | _, _, _, _ => None
  end.

Definition is_high_surrogate (u : N) : bool := (55296 <=? u) && (u <=? 56319).
Definition is_low_surrogate (u : N) : bool := (56320 <=? u) && (u <=? 57343).
Definition join_surrogates (hi lo : N) : N :=
  65536 + N.lor (N.shiftl (hi - 55296) 10) (lo - 56320).

(** The one-letter escapes after a backslash. *)
Definition backslash_escape (e : pychar) : option pychar :=
  if e =? dquote then Some dquote
  else if e =? backslash then Some backslash
  else if e =? ch "/" then Some (ch "/")
  else if e =? ch "b" then Some 8
  else if e =? ch "f" then Some 12
  else if e =? ch "n" then Some 10
  else if e =? ch "r" then Some 13
  else if e =? ch "t" then Some 9
  else None.

(** [scanstring], strict mode, entered after the opening quote: the decoded
    string and the text after the closing quote.  A raw control character,
    a bad escape or a missing closing quote is an error. *)
Fixpoint scanstring (acc : pystr) (s : pystr) {struct s}
  : option (pystr * pystr) :=
  match s with
  | [] => None
  | c :: r =>
    if c =? dquote then Some (acc, r)
    else if c =? backslash then
      match r with
      | [] => None
      | e :: r1 =>
        if e =? ch "u" then
          match r1 with
          | h1 :: h2 :: h3 :: h4 :: r2 =>
            match hex4 h1 h2 h3 h4 with
            | None => None
            | Some uni =>
              if is_high_surrogate uni then
                match r2 with
                | b :: u :: l1 :: l2 :: l3 :: l4 :: r3 =>
                  if (b =? backslash) && (u =? ch "u") then
                    match hex4 l1 l2 l3 l4 with
                    | None => None
                    | Some uni2 =>
                      if is_low_surrogate uni2
                      then scanstring (acc ++ [join_surrogates uni uni2]) r3
                      else scanstring (acc ++ [uni]) r2
                    end
                  else scanstring (acc ++ [uni]) r2
                | _ => scanstring (acc ++ [uni]) r2
                end
              else scanstring (acc ++ [uni]) r2
            end
          | _ => None
          end
        else
          match backslash_escape e with
          | Some x => scanstring (acc ++ [x]) r1
          | None => None
          end
      end
    else if c <? 32 then None
    else scanstring (acc ++ [c]) r
  end.

(** The longest run of ASCII digits at the head of [s], and what follows. *)
Fixpoint span_digits (s : pystr) : pystr * pystr :=
  match s with
  | c :: r => if is_digit c
              then let (d, t) := span_digits r in (c :: d, t)
              else ([], s)
  | [] => ([], [])
  end.

(** [int(digits)] *)
Definition int_of_digits (d : pystr) : Z :=
  fold_left (fun a c => (a * 10 + Z.of_N (c - 48))%Z) d 0%Z.

(** The integer part: an optional minus sign, then [0] or a run of digits
    not starting with [0]. *)
Definition match_integer (s : pystr) : option (bool * pystr * pystr) :=
  let (neg, s1) := match s with
                   | c :: r => if c =? ch "-" then (true, r) else (false, s)
                   | [] => (false, s)
                   end in
  match s1 with
  | c :: r =>
      if c =? ch "0" then Some (neg, [c], r)
      else if is_digit c then let (d, t) := span_digits r in Some (neg, c :: d, t)
      else None
  | [] => None
  end.

(** A fraction: a dot followed by at least one digit. *)
Definition match_frac (s : pystr) : pystr * pystr :=
  match s with
  | c :: r =>
      if c =? ch "." then
        match span_digits r with
        | ([], _) => ([], s)
        | (d, t) => (c :: d, t)
        end
      else ([], s)
  | [] => ([], s)
  end.

(** An exponent: [e] or [E], an optional sign, at least one digit. *)
Definition match_exp (s : pystr) : pystr * pystr :=
  match s with
  | c :: r =>
      if (c =? ch "e") || (c =? ch "E") then
        let (sign, r1) := match r with
                          | g :: r' => if (g =? ch "+") || (g =? ch "-")
                                       then ([g], r') else ([], r)
                          | [] => ([], r)
                          end in
        match span_digits r1 with
        | ([], _) => ([], s)
        | (d, t) => (c :: sign ++ d, t)
        end
      else ([], s)
  | [] => ([], s)
  end.

(** A number: [int] when it has neither fraction nor exponent, else
    [float]. *)
Definition match_number (s : pystr) : option (json * pystr) :=
  match match_integer s with
  | None => None
  | Some (neg, d, r) =>
      let (f, r1) := match_frac r in
      let (e, r2) := match_exp r1 in
      match f, e with
      | [], [] => Some (JInt (if neg then - int_of_digits d else int_of_digits d)%Z, r2)
      | _, _ => Some (JFloat ((if neg then [ch "-"] else []) ++ d ++ f ++ e), r2)
      end
  end.

(** The literals, tried before a number. *)
Definition match_literal (s : pystr) : option (json * pystr) :=
  if startswith (py "null") s then Some (JNull, skipn 4 s)
  else if startswith (py "true") s then Some (JBool true, skipn 4 s)
  else if startswith (py "false") s then Some (JBool false, skipn 5 s)
  else if startswith (py "NaN") s then Some (JFloat (py "NaN"), skipn 3 s)
  else if startswith (py "Infinity") s then Some (JFloat (py "Infinity"), skipn 8 s)
  else if startswith (py "-Infinity") s then Some (JFloat (py "-Infinity"), skipn 9 s)
  else None.

Section Containers.

(** [JSONArray] and [JSONObject] receive the value scanner as an argument,
    as in the library. *)
Variable scan_once : pystr -> scanned json.

(** The elements of an array, entered at the first element. *)
Fixpoint array_items (fuel : nat) (acc : list json) (s : pystr)
  : scanned json :=
  match fuel with
  | O => Deep
  | S fuel' =>
    match scan_once s with
    | Got v r =>
      match skip_ws r with
      | c :: r' =>
          if c =? ch "]" then Got (JList (acc ++ [v])) r'
          else if c =? ch "," then array_items fuel' (acc ++ [v]) (skip_ws r')
          else Bad
      | [] => Bad
      end
    | Bad => Bad
    | Deep => Deep
    end
  end.

(** An array, entered after its opening bracket. *)
Definition JSONArray (fuel : nat) (s : pystr) : scanned json :=
  match skip_ws s with
  | c :: r => if c =? ch "]" then Got (JList []) r
              else array_items fuel [] (c :: r)
  | [] => Bad
  end.

(** The members of an object, entered where a key must start. *)
Fixpoint object_members (fuel : nat) (acc : list (pystr * json)) (s : pystr)
  : scanned json :=
  match fuel with
  | O => Deep
  | S fuel' =>
    match s with
    | q :: r0 =>
      if q =? dquote then
        match scanstring [] r0 with
        | Some (key, r1) =>
          match skip_ws r1 with
          | c :: r2 =>
            if c =? ch ":" then
              match scan_once (skip_ws r2) with
              | Got v r3 =>
                match skip_ws r3 with
                | d :: r4 =>
                    if d =? ch "}" then Got (JDict (dict_set acc key v)) r4
                    else if d =? ch ","
                    then object_members fuel' (dict_set acc key v) (skip_ws r4)
                    else Bad
                | [] => Bad
                end
              | Bad => Bad
              | Deep => Deep
              end
            else Bad
          | [] => Bad
          end
        | None => Bad
        end
      else Bad
    | [] => Bad
    end
  end.

(** An object, entered after its opening brace. *)
Definition JSONObject (fuel : nat) (s : pystr) : scanned json :=
  match skip_ws s with
  | c :: r => if c =? ch "}" then Got (JDict []) r
              else object_members fuel [] (c :: r)
  | [] => Bad
  end.

End Containers.

(** [scan_once]: one JSON value at the head of [s]. *)
Fixpoint scan_once (fuel : nat) (s : pystr) : scanned json :=
  match fuel with
  | O => Deep
  | S fuel' =>
    match s with
    | [] => Bad
    | c :: r =>
      if c =? dquote then
        match scanstring [] r with
        | Some (str, r') => Got (JStr str) r'
        | None => Bad
        end
      else if c =? ch "{" then JSONObject (scan_once fuel') fuel' r
      else if c =? ch "[" then JSONArray (scan_once fuel') fuel' r
      else
        match match_literal s with
        | Some (v, r') => Got v r'
        | None =>
          match match_number s with
          | Some (v, r') => Got v r'
          | None => Bad
          end
        end
    end
  end.

Local Close Scope N_scope.

(** [json.loads(s)]: a leading byte-order mark is refused, white space is
    skipped on both sides of the one value, anything left is "extra data".
    The recursion budget [S (length s)] is never exhausted
    ([scan_once_never_deep]). *)
Definition loads (s : pystr) : result json :=
  if startswith [65279%N] s then Raise JSONDecodeError
  else
    match scan_once (S (length s)) (skip_ws s) with
    | Got v r =>
        match skip_ws r with
        | [] => Ret v
        | _ :: _ => Raise JSONDecodeError
        end
    | Bad => Raise JSONDecodeError
    | Deep => Raise (ExternalError (py "RecursionError") [])
    end.

End Json.
Import Json.

(* ================================================================== *)
(** * The response parser: [safe_extract_json] and the [ArticleSummary]
      schema *)
(* ================================================================== *)

Definition lbrace : pychar := ch "{".
Definition rbrace : pychar := ch "}".

(** The fence marker, three backticks. *)
Definition fence : pystr := [backtick; backtick; backtick].

(** One pattern character against one text character under [re.I]: the
    letter [s] also matches U+017F. *)
Definition eq_ignorecase (p c : pychar) : bool :=
  let lower x := if ((65 <=? x) && (x <=? 90))%N then (x + 32)%N else x in
  N.eqb (lower p) (lower c) || (N.eqb (lower p) (ch "s") && N.eqb c 383%N).

Fixpoint startswith_ignorecase (p s : pystr) : bool :=
  match p, s with
  | [], _ => true
  | a :: p', b :: s' => eq_ignorecase a b && startswith_ignorecase p' s'
  | _ :: _, [] => false
  end.

(** [re.sub] of the pattern  ^```(?:json)?\s*  under [re.I] by the empty
    string: at the start of the text only, the fence, an optional [json] in
    any case, then white space. *)
Definition sub_open_fence (s : pystr) : pystr :=
  if startswith fence s then
    let r := skipn 3 s in
    lstrip (if startswith_ignorecase (py "json") r then skipn 4 r else r)
  else s.

(** [re.sub] of the pattern  \s*```$  by the empty string: a fence at the
    very end, or before one final line feed, goes with the white space
    before it. *)
Definition sub_close_fence (s : pystr) : pystr :=
  if endswith fence s then rstrip (firstn (length s - 3) s)
  else if endswith (fence ++ [newline]) s
       then rstrip (firstn (length s - 4) s) ++ [newline]
  else s.

(** [safe_extract_json] (main.py, lines 89-101). *)
Definition safe_extract_json (raw : pystr) : result json :=
  let s := strip raw in
  let s := if startswith fence s
           then sub_close_fence (sub_open_fence s) else s in
  match loads s with
  | Ret v => Ret v
  | Raise JSONDecodeError =>
      let start := find lbrace s in
      let end_ := rfind rbrace s in
      if (negb (start =? -1) && negb (end_ =? -1) && (end_ >? start))%Z
      then loads (slice s start (end_ + 1))
      else Raise JSONDecodeError
  | Raise e => Raise e
  end.

(** [class ArticleSummary(BaseModel)] (main.py, lines 27-31): four required
    fields of type [str]. *)
Record ArticleSummary := mkArticleSummary {
  judul : pystr;
  tanggal : pystr;
  penulis : pystr;
  ringkasan : pystr
}.

Definition summary_fields : list pystr :=
  [py "judul"; py "tanggal"; py "penulis"; py "ringkasan"].

(** Validation of one field: present and a [str], or an issue. *)
Definition check_field (d : list (pystr * json)) (f : pystr)
  : pystr + schema_issue :=
  match dict_get d f with
  | Some (JStr v) => inl v
  | Some _ => inr StringType
  | None => inr Missing
  end.

Definition field_issue (d : list (pystr * json)) (f : pystr)
  : list (pystr * schema_issue) :=
  match check_field d f with
  | inl _ => []
  | inr i => [(f, i)]
  end.

(** [ArticleSummary] called on the unpacked [parsed_json] (main.py, line
    147): unpacking needs a mapping; pydantic then checks every field,
    collects all issues, and ignores other keys. *)
Definition ArticleSummary_of (parsed_json : json) : result ArticleSummary :=
  match parsed_json with
  | JDict d =>
      match check_field d (py "judul"), check_field d (py "tanggal"),
            check_field d (py "penulis"), check_field d (py "ringkasan") with
      | inl j, inl t, inl p, inl r => Ret (mkArticleSummary j t p r)
      | _, _, _, _ =>
          Raise (ValidationError (flat_map (field_issue d) summary_fields))
      end
  | _ => Raise TypeError
  end.

(* ================================================================== *)
(** * The text normaliser: [clean_html] *)
(* ================================================================== *)

Module Soup.

(** The tree BeautifulSoup builds.  [NavigableString] stands for the string
    classes [get_text] collects (text and CDATA); [OtherString] for every
    other string class, which stays in the tree but is never collected
    (comments, doctype, declarations, processing instructions). *)
#[warnings="-register-all"]
Inductive node :=
| Tag (name : pystr) (attrs : list (pystr * pystr)) (children : list node)
| NavigableString (text : pystr)
| OtherString (text : pystr).

Definition soup := list node.

Definition name_in (names : list pystr) (n : pystr) : bool :=
  existsb (pystr_eqb n) names.

(** [for tag in soup(names): tag.decompose()]: every element with one of
    the names leaves the tree, with all it contains. *)
Fixpoint decompose (names : list pystr) (n : node) : list node :=
  match n with
  | Tag nm a c =>
      if name_in names nm then []
      else [Tag nm a (flat_map (decompose names) c)]
  | _ => [n]
  end.

Definition decompose_all (names : list pystr) (doc : soup) : soup :=
  flat_map (decompose names) doc.

(** [find(name)]: the first element of that name in document order. *)
Fixpoint find_in (name : pystr) (n : node) : option node :=
  match n with
  | Tag nm a c =>
      if pystr_eqb nm name then Some n
      else (fix go (l : list node) : option node :=
              match l with
              | [] => None
              | x :: r => match find_in name x with
                          | Some t => Some t
                          | None => go r
                          end
              end) c
  | _ => None
  end.

Fixpoint soup_find (name : pystr) (doc : soup) : option node :=
  match doc with
  | [] => None
  | x :: r => match find_in name x with
              | Some t => Some t
              | None => soup_find name r
              end
  end.

(** The strings [get_text] visits under a node, in document order. *)
Fixpoint strings (n : node) : list pystr :=
  match n with
  | Tag _ _ c => flat_map strings c
  | NavigableString t => [t]
  | OtherString _ => []
  end.

Definition nonempty (s : pystr) : bool :=
  match s with [] => false | _ :: _ => true end.

(** [get_text(separator=sep, strip=True)] over a list of nodes: every string
    is stripped, the empty ones are dropped, the rest is joined. *)
Definition get_text (sep : pystr) (nodes : list node) : pystr :=
  join sep (filter nonempty (map strip (flat_map strings nodes))).

Definition contents (n : node) : list node :=
  match n with Tag _ _ c => c | _ => [] end.

(** [soup.find("article") or soup.find("main") or soup.find("body") or
    soup]: an element is always truthy, so the first one found is taken. *)
Definition main_content (doc : soup) : list node :=
  match soup_find (py "article") doc with
  | Some t => contents t
  | None =>
    match soup_find (py "main") doc with
    | Some t => contents t
    | None =>
      match soup_find (py "body") doc with
      | Some t => contents t
      | None => doc
      end
    end
  end.

Definition removed_names : list pystr := [py "script"; py "style"; py "noscript"].

Section CleanHtml.

(** [BeautifulSoup(html, "html.parser")] *)
Variable html_parser : pystr -> soup.

(** [clean_html] (main.py, lines 66-71). *)
Definition clean_html (html : pystr) : pystr :=
  let soup := decompose_all removed_names (html_parser html) in
  get_text [newline] (main_content soup).

End CleanHtml.

End Soup.
Import Soup.

(* ================================================================== *)
(** * The style registry: [STYLE_CONTEXTS] *)
(* ================================================================== *)

Record style_config := {
  name : pystr;
  description : pystr;
  prompt_addition : pystr
}.

Definition STYLE_CONTEXTS : list (pystr * style_config) :=
  [ (py "formal",
     {| name := py "Formal";
        description := py "Bahasa resmi dan akademis";
        prompt_addition :=
          py "Gunakan bahasa formal yang sesuai untuk dokumen resmi, akademis, atau profesional. Hindari kontraksi dan gunakan struktur kalimat yang lengkap dan baku. Gunakan terminologi yang tepat dan presisi." |});
    (py "casual",
     {| name := py "Kasual";
        description := py "Bahasa santai dan mudah dipahami";
        prompt_addition :=
          py "Gunakan bahasa yang santai, ramah, dan mudah dipahami seperti berbicara dengan teman. Boleh menggunakan kontraksi dan kata-kata sehari-hari. Buatlah seperti sedang bercerita kepada teman." |});
    (py "professional",
     {| name := py "Profesional";
        description := py "Bahasa bisnis dan teknis";
        prompt_addition :=
          py "Gunakan bahasa profesional yang cocok untuk lingkungan bisnis atau kerja. Fokus pada aspek praktis, dampak, dan implikasi bisnis. Gunakan terminologi industri yang relevan." |});
    (py "journalistic",
     {| name := py "Jurnalistik";
        description := py "Gaya berita dan informatif";
        prompt_addition :=
          py "Gunakan gaya penulisan jurnalistik yang objektif, informatif, dan menarik. Fokus pada fakta-fakta penting, siapa, apa, kapan, di mana, mengapa, dan bagaimana. Gunakan lead yang kuat." |});
    (py "educational",
     {| name := py "Edukatif";
        description := py "Gaya pengajaran dan pembelajaran";
        prompt_addition :=
          py "Gunakan pendekatan edukatif seperti seorang guru atau dosen yang menjelaskan materi kepada siswa. Berikan konteks, penjelasan istilah yang mungkin tidak familiar, dan hubungkan dengan konsep yang lebih besar." |});
    (py "simple",
     {| name := py "Sederhana";
        description := py "Bahasa yang sangat mudah dipahami";
        prompt_addition :=
          py "Gunakan bahasa yang sangat sederhana dan mudah dipahami oleh semua kalangan. Hindari jargon teknis, gunakan kata-kata sehari-hari, dan jelaskan konsep rumit dengan analogi sederhana." |})].

(** [STYLE_CONTEXTS.get(style)] *)
Fixpoint styles_get (table : list (pystr * style_config)) (style : pystr)
  : option style_config :=
  match table with
  | [] => None
  | (k, v) :: r => if pystr_eqb k style then Some v else styles_get r style
  end.

(** [style in STYLE_CONTEXTS] *)
Definition style_known (style : pystr) : bool :=
  match styles_get STYLE_CONTEXTS style with Some _ => true | None => false end.

(** [STYLE_CONTEXTS["casual"]] *)
Definition casual_config : style_config :=
  match styles_get STYLE_CONTEXTS (py "casual") with
  | Some c => c
  | None => {| name := []; description := []; prompt_addition := [] |}
  end.

(** [STYLE_CONTEXTS.get(style, STYLE_CONTEXTS["casual"])] (main.py, line
    107). *)
Definition style_lookup (style : pystr) : style_config :=
  match styles_get STYLE_CONTEXTS style with
  | Some c => c
  | None => casual_config
  end.

(* ================================================================== *)
(** * Collaborators and effects *)
(* ================================================================== *)

(** What [crawler.arun] hands back; [getattr(result, attr, None)] is [None]
    for a missing attribute. *)
Record crawl_result := {
  markdown : option pystr;
  cleaned_html : option pystr
}.

Record response := {
  status_code : Z;
  text : pystr
}.

(** The network calls of the pipeline, with the time-out of the client.
    The API key of the cloud endpoint travels as a query parameter and is
    not part of the event. *)
Inductive event :=
| Crawl (url : pystr)
| HttpGet (url : pystr) (timeout : Z)
| HttpPost (url : pystr) (payload : json) (timeout : Z).

Record world := {
  crawler_arun : pystr -> result crawl_result;
  httpx_get : pystr -> result response;
  httpx_post : pystr -> json -> result response
}.

(** A computation: the calls it made, and how it ended. *)
Definition io (A : Type) : Type := (list event * result A)%type.

Definition ret {A} (a : A) : io A := ([], Ret a).
Definition raise {A} (e : exn) : io A := ([], Raise e).
Definition lift {A} (r : result A) : io A := ([], r).

Definition bind {A B} (m : io A) (f : A -> io B) : io B :=
  match m with
  | (t, Ret a) => let (t', r) := f a in (t ++ t', r)
  | (t, Raise e) => (t, Raise e)
  end.

(** [try: m  except Exception as e: h e] *)
Definition try_except {A} (m : io A) (h : exn -> io A) : io A :=
  match m with
  | (t, Raise e) => let (t', r) := h e in (t ++ t', r)
  | (t, Ret a) => (t, Ret a)
  end.

Notation "x <- m ;; k" := (bind m (fun x => k))
  (at level 61, m at next level, right associativity).

Definition calls {A} (m : io A) : list event := fst m.
Definition outcome {A} (m : io A) : result A := snd m.

(** A truthy optional string: present and not empty. *)
Definition truthy (o : option pystr) : option pystr :=
  match o with
  | Some (c :: r) => Some (c :: r)
  | _ => None
  end.

(** [resp.raise_for_status()]: any status outside 200..299 raises. *)
Definition raise_for_status (resp : response) : io unit :=
  if ((200 <=? status_code resp) && (status_code resp <=? 299))%Z
  then ret tt else raise (HTTPStatusError (status_code resp)).

(** Subscripting and [.strip()] on a decoded reply. *)
Definition getitem (v : json) (k : pystr) : result json :=
  match v with
  | JDict d => match dict_get d k with
               | Some x => Ret x
               | None => Raise KeyError
               end
  | _ => Raise TypeError
  end.

Definition getitem0 (v : json) : result json :=
  match v with
  | JList (x :: _) => Ret x
  | JList [] => Raise IndexError
  | JStr (c :: _) => Ret (JStr [c])
  | JStr [] => Raise IndexError
  | JDict _ => Raise KeyError
  | _ => Raise TypeError
  end.

Definition str_strip (v : json) : result pystr :=
  match v with
  | JStr s => Ret (strip s)
  | _ => Raise AttributeError
  end.

(** [text[:10000]] when [len(text) > 10000] (main.py, lines 104-105;
    gemma_crawl.py, lines 44-45). *)
Definition max_article_chars : nat := N.to_nat 10000.

Definition truncate (text : pystr) : pystr :=
  if max_article_chars <? length text
  then firstn max_article_chars text else text.

Definition prompt_schema : pystr :=
  py "
    Analisis artikel berikut dan berikan ringkasan dalam format JSON yang valid dengan struktur:
    {
        " ++ [dquote] ++ py "judul" ++ [dquote] ++ py ": " ++ [dquote] ++ py "judul artikel" ++ [dquote] ++ py ",
        " ++ [dquote] ++ py "tanggal" ++ [dquote] ++ py ": " ++ [dquote] ++ py "tanggal publikasi atau 'tidak tersedia'" ++ [dquote] ++ py ",
        " ++ [dquote] ++ py "penulis" ++ [dquote] ++ py ": " ++ [dquote] ++ py "nama penulis atau 'tidak tersedia'" ++ [dquote] ++ py ", 
        " ++ [dquote] ++ py "ringkasan" ++ [dquote] ++ py ": " ++ [dquote] ++ py "ringkasan artikel" ++ [dquote] ++ py "
    }

    INSTRUKSI GAYA PENULISAN:
    ".

Definition prompt_task : pystr :=
  py "

    INSTRUKSI RINGKASAN:
    Pelajari isi artikel yang sudah diberikan lalu berikan kepada saya penjelasan yang singkat, jelas, dan padat dari artikel tersebut. Buat ringkasan dalam bentuk paragraf sepanjang 5 kalimat dan pada setiap kalimat saya berharap Anda mencantumkan poin penting dari artikel yang telah dibaca. 

    Berikan dengan kata-kata Anda sendiri yang dapat mudah dipahami. Intinya bukan membahas tentang apa yang ada di dalam artikel, namun artikel tersebut membahas apa dan Anda menjelaskannya kepada saya, layaknya seorang dosen yang membaca buku lalu memberikan penjelasan terhadap mahasiswanya.

    PENTING: Gunakan bahasa Indonesia yang sesuai dengan gaya " ++ [dquote].

Definition prompt_article : pystr :=
  [dquote] ++ py " yang telah dipilih.
    
    Artikel:
    ".

Definition prompt_end : pystr :=
  py "
    ".

(** The f-string of main.py, lines 110-131. *)
Definition build_prompt (text : pystr) (style_config : style_config) : pystr :=
  prompt_schema ++ prompt_addition style_config ++ prompt_task
  ++ name style_config ++ prompt_article ++ text ++ prompt_end.

Definition GEMINI_URL : pystr :=
  py "https://generativelanguage.googleapis.com/v1beta/models/gemini-2.0-flash:generateContent".

(** [{"contents": [{"parts": [{"text": prompt}]}]}] *)
Definition gemini_payload (prompt : pystr) : json :=
  JDict [(py "contents",
          JList [JDict [(py "parts", JList [JDict [(py "text", JStr prompt)]])]])].

(** The outcome of the orchestrator, the body of its [JSONResponse]. *)
Inductive outcome_body :=
| Success (data : ArticleSummary) (url style : pystr) (style_info : style_config)
| Failure (error : pystr).



Definition too_short_message : pystr :=
  py "Artikel terlalu pendek atau tidak dapat diambil. Pastikan URL artikel valid.".

Definition failed_prefix : pystr := py "Gagal memproses artikel: ".

(* ================================================================== *)
(** * The pipeline of main.py *)
(* ================================================================== *)

Section Pipeline.

Variable html_parser : pystr -> soup.
(** [str(e)], as the exception classes of the libraries define it. *)
Variable str_of_exn : exn -> pystr.
Variable w : world.

Definition crawler_call (url : pystr) : io crawl_result :=
  ([Crawl url], crawler_arun w url).

Definition get_call (url : pystr) (timeout : Z) : io response :=
  ([HttpGet url timeout], httpx_get w url).

Definition post_call (url : pystr) (payload : json) (timeout : Z)
  : io response :=
  ([HttpPost url payload timeout], httpx_post w url payload).

(** The [try] block of [crawl_url]: [Some] text when it returns from
    inside the block, [None] when control leaves the block at its end. *)
Definition rich_crawl (url : pystr) : io (option pystr) :=
  result <- crawler_call url ;;
  match truthy (markdown result) with
  | Some md => ret (Some md)
  | None =>
    match truthy (cleaned_html result) with
    | Some html => ret (Some (clean_html html_parser html))
    | None => ret None
    end
  end.

(** [crawl_url] (main.py, lines 73-87). *)
Definition crawl_url (url : pystr) : io pystr :=
  r <- try_except (rich_crawl url) (fun _ => ret None) ;;
  match r with
  | Some content => ret content
  | None =>
      resp <- get_call url 30 ;;
      _ <- raise_for_status resp ;;
      ret (clean_html html_parser (text resp))
  end.

(** [summarize_with_gemini] (main.py, lines 103-147). *)
Definition summarize_with_gemini (text_ style : pystr) : io ArticleSummary :=
  let text_ := truncate text_ in
  let style_config := style_lookup style in
  let prompt := build_prompt text_ style_config in
  resp <- post_call GEMINI_URL (gemini_payload prompt) 60 ;;
  _ <- raise_for_status resp ;;
  data <- lift (loads (text resp)) ;;
  c <- lift (getitem data (py "candidates")) ;;
  c0 <- lift (getitem0 c) ;;
  content <- lift (getitem c0 (py "content")) ;;
  parts <- lift (getitem content (py "parts")) ;;
  p0 <- lift (getitem0 parts) ;;
  t <- lift (getitem p0 (py "text")) ;;
  raw_text <- lift (str_strip t) ;;
  parsed_json <- lift (safe_extract_json raw_text) ;;
  lift (ArticleSummary_of parsed_json).

Definition invalid_style_message (style : pystr) : pystr :=
  py "Gaya '" ++ style ++ py "' tidak valid. Pilih dari: "
  ++ join (py ", ") (map fst STYLE_CONTEXTS).

(** [url] with the scheme defaulted (main.py, lines 165-166). *)
Definition normalize_url (url : pystr) : pystr :=
  if startswith (py "http://") url || startswith (py "https://") url
  then url else py "https://" ++ url.

(** The [try] block of [summarize] (main.py, lines 159-183). *)
Definition summarize_body (url style : pystr) : io outcome_body :=
  if negb (style_known style) then ret (Failure (invalid_style_message style))
  else
    let url := normalize_url url in
    article_text <- crawl_url url ;;
    if negb (nonempty article_text) || (length (strip article_text) <? 100)
    then ret (Failure too_short_message)
    else
      summary <- summarize_with_gemini article_text style ;;
      match styles_get STYLE_CONTEXTS style with
      | Some info => ret (Success summary url style info)
      | None => raise KeyError
      end.

(** [summarize] (main.py, lines 156-189). *)
Definition summarize (url style : pystr) : io outcome_body :=
  try_except (summarize_body url style)
    (fun e => ret (Failure (failed_prefix ++ str_of_exn e))).

End Pipeline.

(* ================================================================== *)
(** * The self-hosted variant, rnd/gemma_crawl.py *)
(* ================================================================== *)

Module Rnd.

Definition summary_prompt_head : pystr :=
  py "
    Buat ringkasan 5 kalimat yang jelas, padat, dan mudah dipahami dari artikel berikut.
    Sertakan poin-poin penting yang dibahas.

    Artikel:
    ".

Definition summary_prompt_end : pystr :=
  py "
    ".

Definition OLLAMA_HOST : pystr := py "http://192.168.100.3:11434".
Definition OLLAMA_MODEL : pystr := py "llama3.2:latest".

Definition ollama_payload (prompt : pystr) : json :=
  JDict [(py "model", JStr OLLAMA_MODEL); (py "prompt", JStr prompt);
         (py "stream", JBool false)].

Definition not_available : pystr := py "tidak tersedia".

Inductive outcome_body :=
| Success (data : ArticleSummary) (url : pystr)
| Failure (error : pystr).

Section Pipeline.

Variable w : world.

(** [crawl_url] (gemma_crawl.py, lines 32-41): the fall-back sits in the
    handler, the reply is returned whatever its status, and no text is
    extracted from the page.  [None] is Python's [None]. *)
Definition crawl_url (url : pystr) : io (option pystr) :=
  try_except
    (result <- crawler_call w url ;;
     match truthy (markdown result) with
     | Some md => ret (Some md)
     | None => ret (cleaned_html result)
     end)
    (fun _ =>
       resp <- get_call w url 30 ;;
       ret (Some (text resp))).

(** The reply text (gemma_crawl.py, line 62): the value under the key
    [response] of the decoded body, the empty string when the key is
    absent, stripped. *)
Definition ollama_reply (resp : response) : result pystr :=
  match loads (text resp) with
  | Ret (JDict d) =>
      match dict_get d (py "response") with
      | Some v => str_strip v
      | None => Ret []
      end
  | Ret _ => Raise AttributeError
  | Raise e => Raise e
  end.

(** [summarize_with_ollama] (gemma_crawl.py, lines 43-74). *)
Definition summarize_with_ollama (text_ : pystr) : io ArticleSummary :=
  let text_ := truncate text_ in
  let summary_prompt := summary_prompt_head ++ text_ ++ summary_prompt_end in
  resp <- post_call w (OLLAMA_HOST ++ py "/api/generate")
            (ollama_payload summary_prompt) 120 ;;
  _ <- raise_for_status resp ;;
  raw_summary <- lift (ollama_reply resp) ;;
  ret (mkArticleSummary not_available not_available not_available
         (if nonempty raw_summary then raw_summary else not_available)).

End Pipeline.

Definition too_short_message : pystr :=
  py "Artikel terlalu pendek atau tidak dapat diambil.".

Section Orchestrator.

Variable str_of_exn : exn -> pystr.
Variable w : world.

(** The [try] block of [summarize] (gemma_crawl.py, lines 85-102); a
    [None] from the fetcher is falsy. *)
Definition summarize_body (url : pystr) : io outcome_body :=
  let url := normalize_url url in
  article_text <- crawl_url w url ;;
  match article_text with
  | None => ret (Failure too_short_message)
  | Some content =>
      if negb (nonempty content) || (length (strip content) <? 100)
      then ret (Failure too_short_message)
      else
        summary <- summarize_with_ollama w content ;;
        ret (Success summary url)
  end.

(** [summarize] (gemma_crawl.py, lines 82-108). *)
Definition summarize (url : pystr) : io outcome_body :=
  try_except (summarize_body url)
    (fun e => ret (Failure (failed_prefix ++ str_of_exn e))).

End Orchestrator.

End Rnd.

(* ================================================================== *)
(** * Notions used to state the properties *)
(* ================================================================== *)


(** Two trees that differ only in their script, style and noscript
    elements: in what these contain, in their attributes, in whether they
    are there at all. *)
Inductive same_outside_removed : soup -> soup -> Prop :=
| sor_nil : same_outside_removed [] []
| sor_string t l1 l2 :
    same_outside_removed l1 l2 ->
    same_outside_removed (NavigableString t :: l1) (NavigableString t :: l2)
| sor_other t l1 l2 :
    same_outside_removed l1 l2 ->
    same_outside_removed (OtherString t :: l1) (OtherString t :: l2)
| sor_tag nm a c1 c2 l1 l2 :
    name_in removed_names nm = false ->
    same_outside_removed c1 c2 ->
    same_outside_removed l1 l2 ->
    same_outside_removed (Tag nm a c1 :: l1) (Tag nm a c2 :: l2)
| sor_removed_left nm a c l1 l2 :
    name_in removed_names nm = true ->
    same_outside_removed l1 l2 ->
    same_outside_removed (Tag nm a c :: l1) l2
| sor_removed_right nm a c l1 l2 :
    name_in removed_names nm = true ->
    same_outside_removed l1 l2 ->
    same_outside_removed l1 (Tag nm a c :: l2).

(** A three-state reading of a text as [json.loads] must see it: outside
    a string literal, inside one, or just after a backslash inside one.
    Outside a literal a backtick is never accepted; inside one a raw control
    character is never accepted.  Every text [json.loads] accepts is read
    from [LexOut] back to [LexOut] ([loads_lexed]). *)
Inductive lex_state := LexOut | LexIn | LexEsc.

Definition lex_step (st : lex_state) (c : pychar) : option lex_state :=
  match st with
  | LexOut => if N.eqb c backtick then None
              else if N.eqb c dquote then Some LexIn else Some LexOut
  | LexIn => if N.eqb c dquote then Some LexOut
             else if N.eqb c backslash then Some LexEsc
             else if N.ltb c 32 then None else Some LexIn
  | LexEsc => Some LexIn
  end.

Fixpoint lex_run (st : lex_state) (s : pystr) : option lex_state :=
  match s with
  | [] => Some st
  | c :: r => match lex_step st c with
              | Some st' => lex_run st' r
              | None => None
              end
  end.

(** [s] is [c ++ r] for some [c] read from [st] to [st']. *)
Definition lexed (st st' : lex_state) (s r : pystr) : Prop :=
  exists c, s = c ++ r /\ lex_run st c = Some st'.

(** A text wrapped in a fenced code block with the language tag [json]. *)
Definition open_fence : pystr := fence ++ py "json" ++ [newline].
Definition close_fence : pystr := [newline] ++ fence.
Definition fenced (t : pystr) : pystr := open_fence ++ t ++ close_fence.

(** What the plain GET tier of main.py's [crawl_url] yields. *)
Definition plain_get_outcome (html_parser : pystr -> soup) (w : world)
  (url : pystr) : result pystr :=
  match httpx_get w url with
  | Ret resp =>
      if ((200 <=? status_code resp) && (status_code resp <=? 299))%Z
      then Ret (clean_html html_parser (text resp))
      else Raise (HTTPStatusError (status_code resp))
  | Raise e => Raise e
  end.

Definition is_llm_call (ev : event) : bool :=
  match ev with HttpPost _ _ _ => true | _ => false end.

(** A character that is read the same outside a literal. *)
Definition plain (c : pychar) : bool :=
  negb (N.eqb c backtick) && negb (N.eqb c dquote).

(** [s = p ++ r] with [p] made of plain characters, and [r] shorter by
    [n] at least. *)
Definition plainly (n : nat) (s r : pystr) : Prop :=
  exists p, s = p ++ r /\ forallb plain p = true /\ n <= length p.

(** What the containers need of the value scanner: a value it returns was
    read from outside a literal to outside a literal and took at least one
    character; and it does not run out of budget on short texts. *)
Definition scan_ok (scan : pystr -> scanned json) : Prop :=
  forall s v r, scan s = Got v r ->
    lexed LexOut LexOut s r /\ length r < length s.

Definition scan_total (n : nat) (scan : pystr -> scanned json) : Prop :=
  forall s, length s < n -> scan s <> Deep.

(** The [try] / [except] of [safe_extract_json], on the cleaned text. *)
Definition decode_or_slice (s : pystr) : result json :=
  match loads s with
  | Ret v => Ret v
  | Raise JSONDecodeError =>
      let start := find lbrace s in
      let end_ := rfind rbrace s in
      if (negb (start =? -1) && negb (end_ =? -1) && (end_ >? start))%Z
      then loads (slice s start (end_ + 1))
      else Raise JSONDecodeError
  | Raise e => Raise e
  end.

(** [url.startswith(("http://", "https://"))] *)
Definition has_scheme (url : pystr) : bool :=
  startswith (py "http://") url || startswith (py "https://") url.

(** The subscript chain of main.py, line 144, on the decoded body: the
    text of the first part of the first candidate, stripped. *)
Definition reply_text (data : json) : result pystr :=
  match getitem data (py "candidates") with
  | Raise e => Raise e
  | Ret c =>
    match getitem0 c with
    | Raise e => Raise e
    | Ret c0 =>
      match getitem c0 (py "content") with
      | Raise e => Raise e
      | Ret content =>
        match getitem content (py "parts") with
        | Raise e => Raise e
        | Ret parts =>
          match getitem0 parts with
          | Raise e => Raise e
          | Ret p0 =>
            match getitem p0 (py "text") with
            | Raise e => Raise e
            | Ret t => str_strip t
            end
          end
        end
      end
    end
  end.


(** A tree without the strings [get_text] does not collect. *)
Fixpoint drop_other (n : node) : list node :=
  match n with
  | Tag nm a c => [Tag nm a (flat_map drop_other c)]
  | NavigableString t => [n]
  | OtherString _ => []
  end.

(** ** Serialising a summary

    The text [JSONResponse] renders for [summary.model_dump()]:
    [json.dumps] with [ensure_ascii=False] and the separators [,] and [:].
    A string is written between quotes; the quote, the backslash and the
    control characters are escaped, every other character is written as it
    is. *)
Definition hex_digit (n : N) : pychar :=
  if N.ltb n 10 then (48 + n)%N else (87 + n)%N.

Definition escape_char (c : pychar) : pystr :=
  if N.eqb c dquote then [backslash; dquote]
  else if N.eqb c backslash then [backslash; backslash]
  else if N.eqb c 10 then [backslash; ch "n"]
  else if N.eqb c 13 then [backslash; ch "r"]
  else if N.eqb c 9 then [backslash; ch "t"]
  else if N.eqb c 8 then [backslash; ch "b"]
  else if N.eqb c 12 then [backslash; ch "f"]
  else if N.ltb c 32
       then [backslash; ch "u"; ch "0"; ch "0";
             hex_digit (N.div c 16); hex_digit (N.modulo c 16)]
  else [c].

Definition encode_basestring (s : pystr) : pystr :=
  [dquote] ++ flat_map escape_char s ++ [dquote].

Definition member (key : string) (value : pystr) : pystr :=
  [dquote] ++ py key ++ [dquote] ++ py ":" ++ encode_basestring value.

Definition dumps_body (a : ArticleSummary) : pystr :=
  member "judul" (judul a) ++ py "," ++ member "tanggal" (tanggal a) ++ py ","
  ++ member "penulis" (penulis a) ++ py "," ++ member "ringkasan" (ringkasan a).

Definition dumps_summary (a : ArticleSummary) : pystr :=
  lbrace :: dumps_body a ++ [rbrace].

(** [summary.model_dump()] *)
Definition model_dump (a : ArticleSummary) : json :=
  JDict [(py "judul", JStr (judul a)); (py "tanggal", JStr (tanggal a));
         (py "penulis", JStr (penulis a)); (py "ringkasan", JStr (ringkasan a))].

(* ================================================================== *)
(** A piece of text with neither a blank first nor a blank last
    character, and not empty. *)
Definition trimmed_piece (p : pystr) : Prop :=
  p <> [] /\ lstrip p = p /\ rstrip p = p.

(** The strings under the first element of a name, if there is one. *)
Definition found_strings (name : pystr) (doc : soup) : option (list pystr) :=
  option_map (fun t => flat_map strings (contents t)) (soup_find name doc).

(** * Sample inputs *)
(* ================================================================== *)

Module Samples.

Definition q (s : string) : pystr := [dquote] ++ py s ++ [dquote].

(** The reply of scenario C of the specification, without its fence. *)
Definition summary_body : pystr :=
  q "judul" ++ py ":" ++ q "X" ++ py ","
  ++ q "tanggal" ++ py ":" ++ q "2024-01-01" ++ py ","
  ++ q "penulis" ++ py ":" ++ q "Y" ++ py ","
  ++ q "ringkasan" ++ py ":" ++ q "Z Z Z Z Z".

Definition summary_json : pystr := lbrace :: summary_body ++ [rbrace].

Definition summary_object : json :=
  JDict [(py "judul", JStr (py "X")); (py "tanggal", JStr (py "2024-01-01"));
         (py "penulis", JStr (py "Y")); (py "ringkasan", JStr (py "Z Z Z Z Z"))].

Definition summary_X : ArticleSummary :=
  mkArticleSummary (py "X") (py "2024-01-01") (py "Y") (py "Z Z Z Z Z").

(** A reply with all four fields and an empty synopsis. *)
Definition empty_synopsis_json : pystr :=
  [lbrace] ++ q "judul" ++ py ":" ++ q "X" ++ py ","
  ++ q "tanggal" ++ py ":" ++ q "2024-01-01" ++ py ","
  ++ q "penulis" ++ py ":" ++ q "Y" ++ py ","
  ++ q "ringkasan" ++ py ":" ++ [dquote; dquote] ++ [rbrace].

(** A reply without author, and one whose title is a number. *)
Definition no_author_json : pystr :=
  [lbrace] ++ q "judul" ++ py ":" ++ q "X" ++ py ","
  ++ q "tanggal" ++ py ":" ++ q "2024-01-01" ++ py ","
  ++ q "ringkasan" ++ py ":" ++ q "Z" ++ [rbrace].

Definition numeric_title_json : pystr :=
  [lbrace] ++ q "judul" ++ py ":7,"
  ++ q "tanggal" ++ py ":" ++ q "2024-01-01" ++ py ","
  ++ q "penulis" ++ py ":" ++ q "Y" ++ py ","
  ++ q "ringkasan" ++ py ":" ++ q "Z" ++ [rbrace].

(** A text as the content of a JSON string literal. *)
Definition json_escape (s : pystr) : pystr :=
  flat_map (fun c => if N.eqb c dquote then [backslash; dquote]
                     else if N.eqb c backslash then [backslash; backslash]
                     else if N.eqb c newline then [backslash; ch "n"]
                     else [c]) s.

(** A parser that knows one page: an article of 120 letters next to a
    script. *)
Definition long_text : pystr := repeat (ch "a") 120.

Definition page : soup :=
  [Tag (py "html") []
     [Tag (py "body") []
        [Tag (py "script") [] [NavigableString (py "track()")];
         Tag (py "main") [] [NavigableString (py "navigation")];
         Tag (py "article") [] [NavigableString long_text]]]].

(** The same page with other scripts. *)
Definition page' : soup :=
  [Tag (py "html") []
     [Tag (py "body") []
        [Tag (py "main") [] [NavigableString (py "navigation")];
         Tag (py "noscript") [] [Tag (py "article") [] [NavigableString (py "enable scripts")]];
         Tag (py "article") [] [NavigableString long_text];
         Tag (py "style") [] [NavigableString (py "p { color: red }")]]]].

Definition one_page_parser (html : pystr) : soup :=
  match html with
  | [] => []
  | [_] => page'
  | _ :: _ :: _ => page
  end.

Definition plain_str (e : exn) : pystr :=
  match e with
  | JSONDecodeError => py "Expecting value"
  | ValidationError _ => py "validation error for ArticleSummary"
  | KeyError => py "key"
  | IndexError => py "list index out of range"
  | TypeError => py "type"
  | AttributeError => py "attribute"
  | HTTPStatusError _ => py "Client error"
  | ExternalError _ t => t
  end.

Definition timeout_error : exn := ExternalError (py "TimeoutError") (py "timed out").

(** The crawler times out, the page answers the plain GET, the model
    answers with [reply]. *)
Definition gemini_body (reply : pystr) : pystr :=
  [lbrace] ++ q "candidates" ++ py ":[{" ++ q "content" ++ py ":{"
  ++ q "parts" ++ py ":[{" ++ q "text" ++ py ":"
  ++ [dquote] ++ json_escape reply ++ [dquote] ++ py "}]}}]}".

Definition fallback_world (status : Z) (reply : pystr) : world :=
  {| crawler_arun := fun _ => Raise timeout_error;
     httpx_get := fun _ => Ret {| status_code := status; text := py "<html>" |};
     httpx_post := fun _ _ => Ret {| status_code := 200; text := gemini_body reply |} |}.

(** The self-hosted model answers with an empty text. *)
Definition silent_ollama_world : world :=
  {| crawler_arun := fun _ => Raise timeout_error;
     httpx_get := fun _ => Raise timeout_error;
     httpx_post := fun _ _ =>
       Ret {| status_code := 200;
              text := [lbrace] ++ q "response" ++ py ":" ++ [dquote; dquote] ++ [rbrace] |} |}.

(** The crawler returns without content. *)
Definition empty_crawl_world : world :=
  {| crawler_arun := fun _ => Ret {| markdown := Some []; cleaned_html := None |};
     httpx_get := fun _ => Ret {| status_code := 200; text := py "<html>" |};
     httpx_post := fun _ _ => Raise timeout_error |}.

(** The crawler returns 99 letters and a line feed as markdown. *)
Definition short_page_world : world :=
  {| crawler_arun := fun _ => Ret {| markdown := Some (repeat (ch "a") 99 ++ [newline]);
                                     cleaned_html := None |};
     httpx_get := fun _ => Raise timeout_error;
     httpx_post := fun _ _ => Raise timeout_error |}.

(** The crawler returns markdown and cleaned HTML. *)
Definition markdown_world : world :=
  {| crawler_arun := fun _ => Ret {| markdown := Some (py "# Judul");
                                     cleaned_html := Some (py "<html>") |};
     httpx_get := fun _ => Raise timeout_error;
     httpx_post := fun _ _ => Raise timeout_error |}.

(** The sample page with a doctype and comments. *)
Definition page_commented : soup :=
  [OtherString (py "DOCTYPE html");
   Tag (py "html") []
     [OtherString (py " header ");
      Tag (py "body") []
        [Tag (py "script") [] [NavigableString (py "track()")];
         Tag (py "main") [] [NavigableString (py "navigation")];
         Tag (py "article") []
           [OtherString (py " tracking pixel "); NavigableString long_text]]]].

Definition two_page_parser (html : pystr) : soup :=
  match html with
  | [] => page
  | _ :: _ => page_commented
  end.

(** The crawler returns without content; nothing else answers. *)
Definition empty_crawl_only_world : world :=
  {| crawler_arun := fun _ => Ret {| markdown := None; cleaned_html := None |};
     httpx_get := fun _ => Raise timeout_error;
     httpx_post := fun _ _ => Raise timeout_error |}.

End Samples.

(* ================================================================== *)
(** * Properties *)
(* ================================================================== *)

Arguments STYLE_CONTEXTS : simpl never.
Arguments summarize_with_gemini : simpl never.
Arguments crawl_url : simpl never.
Arguments strip : simpl never.

Ltac run_io :=
  cbv [bind try_except ret raise lift calls outcome crawler_call get_call
       post_call raise_for_status fst snd] in *.

(** ** Strings *)

Lemma pystr_eqb_eq (a b : pystr) : pystr_eqb a b = true <-> a = b.
Proof.
  unfold pystr_eqb. destruct (list_eq_dec N.eq_dec a b); split; congruence.
Qed.

Lemma pystr_eqb_refl (a : pystr) : pystr_eqb a a = true.
Proof. now apply pystr_eqb_eq. Qed.

Lemma lstrip_length (s : pystr) : length (lstrip s) <= length s.
Proof. induction s as [|c r IH]; simpl; [lia|]. destruct (isspace c); simpl; lia. Qed.

Lemma strip_length (s : pystr) : length (strip s) <= length s.
Proof.
  unfold strip, rstrip. rewrite length_rev.
  etransitivity; [apply lstrip_length|]. rewrite length_rev. apply lstrip_length.
Qed.

(** ** The prompt builder *)

Lemma truncate_prefix (text : pystr) : truncate text = firstn max_article_chars text.
Proof.
  unfold truncate. destruct (Nat.ltb_spec max_article_chars (length text)); auto.
  symmetry. apply firstn_all2. assumption.
Qed.

Lemma truncate_length (text : pystr) : length (truncate text) <= max_article_chars.
Proof. rewrite truncate_prefix. apply firstn_le_length. Qed.

Lemma summarize_with_gemini_calls (w : world) (text_ style : pystr) :
  calls (summarize_with_gemini w text_ style)
  = [HttpPost GEMINI_URL
       (gemini_payload (build_prompt (truncate text_) (style_lookup style))) 60].
Proof.
  unfold summarize_with_gemini. run_io.
  destruct (httpx_post w _ _) as [resp|e]; [|reflexivity].
  destruct ((200 <=? status_code resp) && (status_code resp <=? 299))%Z; [|reflexivity].
  simpl.
  repeat match goal with
         | |- context [match ?r with Ret _ => _ | Raise _ => _ end] =>
             destruct r; simpl; try reflexivity
         end.
Qed.

(** C5.  Whatever the article text, the text embedded in the prompt is its
    prefix of at most 10,000 characters (the text itself when it is not
    longer), the prompt is the fixed instruction text around that prefix,
    and the generation endpoint is called with exactly this prompt: a long
    text raises nothing on the way.  The same holds for the self-hosted
    variant. *)
Theorem prompt_embeds_at_most_10000_chars :
  forall (w : world) (text_ style : pystr),
    let embedded := truncate text_ in
    length embedded <= N.to_nat 10000
    /\ embedded = firstn (N.to_nat 10000) text_
    /\ (length text_ <= N.to_nat 10000 -> embedded = text_)
    /\ build_prompt embedded (style_lookup style)
       = prompt_schema ++ prompt_addition (style_lookup style) ++ prompt_task
         ++ name (style_lookup style) ++ prompt_article ++ embedded ++ prompt_end
    /\ calls (summarize_with_gemini w text_ style)
       = [HttpPost GEMINI_URL
            (gemini_payload (build_prompt embedded (style_lookup style))) 60]
    /\ calls (Rnd.summarize_with_ollama w text_)
       = [HttpPost (Rnd.OLLAMA_HOST ++ py "/api/generate")
            (Rnd.ollama_payload
               (Rnd.summary_prompt_head ++ embedded ++ Rnd.summary_prompt_end))
            120].
Proof.
  intros w text_ style embedded. subst embedded.
  repeat split.
  - apply truncate_length.
  - apply truncate_prefix.
  - intros H. rewrite truncate_prefix. apply firstn_all2. exact H.
  - apply summarize_with_gemini_calls.
  - unfold Rnd.summarize_with_ollama. run_io.
    destruct (httpx_post w _ _) as [resp|e]; [|reflexivity].
    destruct ((200 <=? status_code resp) && (status_code resp <=? 299))%Z; [|reflexivity].
    simpl. destruct (Rnd.ollama_reply resp); reflexivity.
Qed.

(** ** The style registry *)

Lemma style_known_iff (style : pystr) :
  style_known style = true <-> In style (map fst STYLE_CONTEXTS).
Proof.
  unfold style_known. generalize STYLE_CONTEXTS as table.
  induction table as [|[k v] r IH]; cbn [styles_get map fst In].
  - split; [discriminate | tauto].
  - destruct (pystr_eqb k style) eqn:E.
    + apply pystr_eqb_eq in E. tauto.
    + split; [tauto|]. intros [H|H]; [|tauto].
      subst. rewrite pystr_eqb_refl in E. discriminate.
Qed.

(** C7.  A style identifier outside the registry is refused by [summarize]
    with a message that names it and lists the six valid identifiers, and
    the log of network calls is empty: neither the crawler, the HTTP client
    nor the generation endpoint was called.  The lookup inside the pipeline
    ([summarize_with_gemini]) does not fail on such an identifier: it
    answers with the entry of "casual". *)
Theorem unknown_style_rejected_before_any_call :
  forall html_parser str_of_exn (w : world) (url style : pystr),
    ~ In style (map fst STYLE_CONTEXTS) ->
    summarize html_parser str_of_exn w url style
    = ([], Ret (Failure
                  (py "Gaya '" ++ style ++
                   py "' tidak valid. Pilih dari: formal, casual, professional, journalistic, educational, simple")))
    /\ styles_get STYLE_CONTEXTS (py "casual") = Some (style_lookup style)
    /\ name (style_lookup style) = py "Kasual".
Proof.
  intros hp str w url style Hnot.
  assert (Hk : style_known style = false).
  { destruct (style_known style) eqn:E; [|reflexivity].
    apply style_known_iff in E. contradiction. }
  assert (Hget : styles_get STYLE_CONTEXTS style = None).
  { unfold style_known in Hk. destruct (styles_get STYLE_CONTEXTS style); congruence. }
  split; [|split].
  - unfold summarize, summarize_body. rewrite Hk. reflexivity.
  - unfold style_lookup. rewrite Hget. reflexivity.
  - unfold style_lookup. rewrite Hget. reflexivity.
Qed.

Lemma unknown_style_rejected_witness :
  summarize Samples.one_page_parser Samples.plain_str
    (Samples.fallback_world 200 []) (py "example.com/article") (py "pirate")
  = ([], Ret (Failure
                (py "Gaya 'pirate' tidak valid. Pilih dari: formal, casual, professional, journalistic, educational, simple")))
  /\ styles_get STYLE_CONTEXTS (py "casual") = Some (style_lookup (py "pirate"))
  /\ name (style_lookup (py "pirate")) = py "Kasual".
Proof.
  apply (unknown_style_rejected_before_any_call
           Samples.one_page_parser Samples.plain_str
           (Samples.fallback_world 200 []) (py "example.com/article") (py "pirate")).
  intros H. vm_compute in H. intuition discriminate.
Defined.

(** ** The fetcher *)

Lemma crawl_url_fallback html_parser (w : world) (url : pystr) :
  outcome (try_except (rich_crawl html_parser w url) (fun _ => ret None)) = Ret None ->
  crawl_url html_parser w url
  = ([Crawl url; HttpGet url 30], plain_get_outcome html_parser w url).
Proof.
  unfold crawl_url, rich_crawl, plain_get_outcome. run_io.
  destruct (crawler_arun w url) as [res|e]; simpl.
  - destruct (truthy (markdown res)); simpl; [discriminate|].
    destruct (truthy (cleaned_html res)); simpl; [discriminate|]. intros _.
    destruct (httpx_get w url) as [resp|e]; simpl; [|reflexivity].
    destruct ((200 <=? status_code resp) && (status_code resp <=? 299))%Z; reflexivity.
  - intros _.
    destruct (httpx_get w url) as [resp|e']; simpl; [|reflexivity].
    destruct ((200 <=? status_code resp) && (status_code resp <=? 299))%Z; reflexivity.
Qed.

(** X1.  Main.py's fetcher: an error of the rich crawl is swallowed, the plain
    GET is made with a time-out of 30, and a failure of that GET (a status
    outside 2xx, or an error of the call) leaves [crawl_url] as an error. *)
Theorem crawl_error_falls_back_and_get_error_propagates :
  forall html_parser (w : world) (url : pystr) (e : exn),
    crawler_arun w url = Raise e ->
    calls (crawl_url html_parser w url) = [Crawl url; HttpGet url 30]
    /\ (forall e', httpx_get w url = Raise e' ->
          outcome (crawl_url html_parser w url) = Raise e')
    /\ (forall resp, httpx_get w url = Ret resp ->
          (status_code resp < 200 \/ 299 < status_code resp)%Z ->
          outcome (crawl_url html_parser w url)
          = Raise (HTTPStatusError (status_code resp)))
    /\ (forall resp, httpx_get w url = Ret resp ->
          (200 <= status_code resp <= 299)%Z ->
          outcome (crawl_url html_parser w url)
          = Ret (clean_html html_parser (text resp))).
Proof.
  intros hp w url e He.
  rewrite crawl_url_fallback.
  2:{ unfold rich_crawl. run_io. rewrite He. reflexivity. }
  unfold plain_get_outcome. simpl. repeat split.
  - intros e' H. rewrite H. reflexivity.
  - intros resp H Hs. rewrite H.
    destruct ((200 <=? status_code resp) && (status_code resp <=? 299))%Z eqn:E;
      [|reflexivity].
    apply andb_true_iff in E. destruct E as [E1 E2].
    apply Z.leb_le in E1. apply Z.leb_le in E2. lia.
  - intros resp H Hs. rewrite H.
    destruct ((200 <=? status_code resp) && (status_code resp <=? 299))%Z eqn:E;
      [reflexivity|].
    apply andb_false_iff in E. destruct E as [E|E]; apply Z.leb_gt in E; lia.
Qed.

Lemma crawl_error_falls_back_witness :
  calls (crawl_url Samples.one_page_parser (Samples.fallback_world 404 [])
           (py "https://example.com/a"))
  = [Crawl (py "https://example.com/a"); HttpGet (py "https://example.com/a") 30]
  /\ outcome (crawl_url Samples.one_page_parser (Samples.fallback_world 404 [])
                (py "https://example.com/a"))
     = Raise (HTTPStatusError 404).
Proof.
  destruct (crawl_error_falls_back_and_get_error_propagates
              Samples.one_page_parser (Samples.fallback_world 404 [])
              (py "https://example.com/a") Samples.timeout_error eq_refl)
    as (Hc & _ & Hs & _).
  split; [exact Hc|].
  apply (Hs {| status_code := 404; text := py "<html>" |} eq_refl).
  simpl. lia.
Defined.

(** C8, at the failing input.  The crawler times out and the page answers
    the plain GET with status 404.  Main.py's [crawl_url] raises the status
    error; the [crawl_url] of rnd/gemma_crawl.py makes the same two calls
    and returns the body of the 404 reply as the article. *)
Theorem rnd_crawl_url_returns_error_page :
  let w := Samples.fallback_world 404 [] in
  let url := py "https://example.com/a" in
  Rnd.crawl_url w url = ([Crawl url; HttpGet url 30], Ret (Some (py "<html>")))
  /\ crawl_url Samples.one_page_parser w url
     = ([Crawl url; HttpGet url 30], Raise (HTTPStatusError 404)).
Proof. split; reflexivity. Qed.

(** C10.  When the crawler returns without raising and neither its markdown
    nor its cleaned HTML is a non-empty string, [crawl_url] goes on to the
    plain GET (time-out 30) and answers with what that GET yields; it does
    not return the empty content of the crawl. *)
Theorem empty_crawl_falls_back_to_plain_get :
  forall html_parser (w : world) (url : pystr) (res : crawl_result),
    crawler_arun w url = Ret res ->
    truthy (markdown res) = None ->
    truthy (cleaned_html res) = None ->
    crawl_url html_parser w url
    = ([Crawl url; HttpGet url 30],
       match httpx_get w url with
       | Ret resp =>
           if ((200 <=? status_code resp) && (status_code resp <=? 299))%Z
           then Ret (clean_html html_parser (text resp))
           else Raise (HTTPStatusError (status_code resp))
       | Raise e => Raise e
       end).
Proof.
  intros hp w url res Hres Hmd Hhtml.
  rewrite crawl_url_fallback; [reflexivity|].
  unfold rich_crawl. run_io. rewrite Hres. simpl. rewrite Hmd, Hhtml. reflexivity.
Qed.

Lemma empty_crawl_falls_back_witness :
  crawl_url Samples.one_page_parser Samples.empty_crawl_world (py "https://example.com/a")
  = ([Crawl (py "https://example.com/a"); HttpGet (py "https://example.com/a") 30],
     Ret (repeat (ch "a") 120)).
Proof.
  rewrite (empty_crawl_falls_back_to_plain_get Samples.one_page_parser
             Samples.empty_crawl_world (py "https://example.com/a")
             {| markdown := Some []; cleaned_html := None |}
             eq_refl eq_refl eq_refl).
  reflexivity.
Defined.

(** ** The orchestrator *)

Lemma crawl_url_calls html_parser (w : world) (url : pystr) :
  calls (crawl_url html_parser w url) = [Crawl url]
  \/ calls (crawl_url html_parser w url) = [Crawl url; HttpGet url 30].
Proof.
  unfold crawl_url, rich_crawl. run_io.
  destruct (crawler_arun w url) as [res|e]; simpl.
  - destruct (truthy (markdown res)); simpl; [now left|].
    destruct (truthy (cleaned_html res)); simpl; [now left|].
    right. destruct (httpx_get w url) as [resp|e]; simpl; [|reflexivity].
    destruct ((200 <=? status_code resp) && (status_code resp <=? 299))%Z; reflexivity.
  - right. destruct (httpx_get w url) as [resp|e']; simpl; [|reflexivity].
    destruct ((200 <=? status_code resp) && (status_code resp <=? 299))%Z; reflexivity.
Qed.

Lemma strip_nil : strip [] = [].
Proof. reflexivity. Qed.

Lemma io_eta {A} (m : io A) : m = (calls m, outcome m).
Proof. destruct m; reflexivity. Qed.

(** [summarize] once the style is known and the fetcher has returned. *)
Lemma summarize_after_fetch html_parser str_of_exn (w : world)
  (url style text_ : pystr) (tr : list event) :
  style_known style = true ->
  crawl_url html_parser w (normalize_url url) = (tr, Ret text_) ->
  summarize html_parser str_of_exn w url style
  = if negb (nonempty text_) || (length (strip text_) <? 100)
    then (tr, Ret (Failure too_short_message))
    else (tr ++ calls (summarize_with_gemini w text_ style),
          match outcome (summarize_with_gemini w text_ style) with
          | Ret summary => Ret (Success summary (normalize_url url) style
                                  (style_lookup style))
          | Raise e => Ret (Failure (failed_prefix ++ str_of_exn e))
          end).
Proof.
  intros Hk Hfetch. unfold summarize, summarize_body. rewrite Hk.
  cbv beta iota delta [negb]. unfold bind at 1. rewrite Hfetch.
  destruct (orb (if nonempty text_ then false else true) (length (strip text_) <? 100)) eqn:E.
  - unfold ret, try_except. rewrite app_nil_r. reflexivity.
  - unfold style_lookup. unfold style_known in Hk.
    destruct (styles_get STYLE_CONTEXTS style) as [info|]; [|discriminate].
    rewrite (io_eta (summarize_with_gemini w text_ style)).
    unfold bind, try_except, ret.
    destruct (outcome (summarize_with_gemini w text_ style));
      cbv beta iota; rewrite ?app_nil_r; reflexivity.
Qed.

(** C2.  With a known style and a fetcher that returned [text_]: when the
    trimmed text has fewer than 100 characters (an empty text included) the
    outcome is the content-too-short failure and the log holds no call of the
    generation endpoint; when it has 100 or more, the endpoint is called
    with the prompt built from the text and the outcome is never the
    content-too-short failure.  So trimmed lengths 99 and 100 end
    differently. *)
Theorem short_content_rejected_without_llm_call :
  forall html_parser str_of_exn (w : world) (url style text_ : pystr)
         (tr : list event),
    In style (map fst STYLE_CONTEXTS) ->
    crawl_url html_parser w (normalize_url url) = (tr, Ret text_) ->
    (length (strip text_) < 100 ->
       summarize html_parser str_of_exn w url style
       = (tr, Ret (Failure too_short_message))
       /\ existsb is_llm_call tr = false)
    /\ (100 <= length (strip text_) ->
          calls (summarize html_parser str_of_exn w url style)
          = tr ++ [HttpPost GEMINI_URL
                     (gemini_payload
                        (build_prompt (truncate text_) (style_lookup style))) 60]
          /\ exists r,
               outcome (summarize html_parser str_of_exn w url style) = Ret r
               /\ r <> Failure too_short_message).
Proof.
  intros hp str w url style text_ tr Hin Hfetch.
  apply style_known_iff in Hin.
  rewrite (summarize_after_fetch hp str w url style text_ tr Hin Hfetch).
  split.
  - intros Hshort.
    apply Nat.ltb_lt in Hshort. rewrite Hshort, orb_true_r. split; [reflexivity|].
    pose proof (crawl_url_calls hp w (normalize_url url)) as Hc.
    rewrite Hfetch in Hc. simpl in Hc. destruct Hc as [-> | ->]; reflexivity.
  - intros Hlong.
    assert (Hne : nonempty text_ = true).
    { destruct text_; [rewrite strip_nil in Hlong; simpl in Hlong; lia | reflexivity]. }
    apply Nat.ltb_ge in Hlong. rewrite Hne, Hlong. simpl.
    rewrite summarize_with_gemini_calls. split; [reflexivity|].
    destruct (outcome (summarize_with_gemini w text_ style)) as [a|e];
      eexists; (split; [reflexivity | discriminate]).
Qed.

Lemma short_content_rejected_witness :
  summarize Samples.one_page_parser Samples.plain_str Samples.short_page_world
    (py "example.com/a") (py "formal")
  = ([Crawl (py "https://example.com/a")], Ret (Failure too_short_message)).
Proof.
  refine (proj1 (proj1 (short_content_rejected_without_llm_call
            Samples.one_page_parser Samples.plain_str Samples.short_page_world
            (py "example.com/a") (py "formal")
            (repeat (ch "a") 99 ++ [newline])
            [Crawl (py "https://example.com/a")] _ eq_refl) _)).
  - simpl. tauto.
  - vm_compute. lia.
Defined.


(** ** The text normaliser *)

Lemma node_induction (P : node -> Prop) :
  (forall nm a c, Forall P c -> P (Tag nm a c)) ->
  (forall t, P (NavigableString t)) ->
  (forall t, P (OtherString t)) ->
  forall n, P n.
Proof.
  intros Htag Hstr Hother.
  fix IH 1. intros [nm a c|t|t]; [|apply Hstr|apply Hother].
  apply Htag. induction c as [|x r IHr]; constructor; [apply IH | exact IHr].
Qed.






Example sample_pages_differ_only_in_scripts :
  same_outside_removed Samples.page Samples.page'.
Proof.
  unfold Samples.page, Samples.page'.
  apply sor_tag; [reflexivity| |apply sor_nil].
  apply sor_tag; [reflexivity| |apply sor_nil].
  apply sor_removed_left; [reflexivity|].
  apply sor_tag; [reflexivity| |].
  - apply sor_string, sor_nil.
  - apply sor_removed_right; [reflexivity|].
    apply sor_tag; [reflexivity| |].
    + apply sor_string, sor_nil.
    + apply sor_removed_right; [reflexivity | apply sor_nil].
Qed.

(** The sample page has a script, a main element and, after it, an
    article: the text is the article's. *)
Example clean_html_sample_page :
  clean_html Samples.one_page_parser (py "<html>") = Samples.long_text
  /\ clean_html Samples.one_page_parser (py "<") = Samples.long_text.
Proof. split; reflexivity. Qed.

(** ** The lexical shape of what [json.loads] accepts *)

Lemma lex_run_app st (a b : pystr) :
  lex_run st (a ++ b)
  = match lex_run st a with Some st' => lex_run st' b | None => None end.
Proof.
  revert st. induction a as [|c a IH]; intros st; simpl; [reflexivity|].
  destruct (lex_step st c); [apply IH | reflexivity].
Qed.

Lemma lexed_refl st (s : pystr) : lexed st st s s.
Proof. exists []. split; reflexivity. Qed.

Lemma lexed_trans st1 st2 st3 (s r t : pystr) :
  lexed st1 st2 s r -> lexed st2 st3 r t -> lexed st1 st3 s t.
Proof.
  intros (c1 & -> & H1) (c2 & -> & H2). exists (c1 ++ c2).
  split; [now rewrite app_assoc|]. now rewrite lex_run_app, H1.
Qed.

Lemma lexed_cons st st' st'' (c : pychar) (s r : pystr) :
  lex_step st c = Some st' -> lexed st' st'' s r -> lexed st st'' (c :: s) r.
Proof.
  intros Hs (x & -> & Hx). exists (c :: x). split; [reflexivity|].
  simpl. now rewrite Hs.
Qed.

Lemma lexed_length st st' (s r : pystr) : lexed st st' s r -> length r <= length s.
Proof. intros (c & -> & _). rewrite length_app. lia. Qed.

Lemma lex_step_plain (c : pychar) : plain c = true -> lex_step LexOut c = Some LexOut.
Proof.
  unfold plain, lex_step. intros H. apply andb_true_iff in H. destruct H as [H1 H2].
  apply negb_true_iff in H1, H2. now rewrite H1, H2.
Qed.

Lemma lexed_plain (c : pychar) (s r : pystr) st :
  plain c = true -> lexed LexOut st s r -> lexed LexOut st (c :: s) r.
Proof. intros H. apply lexed_cons. now apply lex_step_plain. Qed.

Lemma lexed_plain_prefix (p s : pystr) :
  forallb plain p = true -> lexed LexOut LexOut (p ++ s) s.
Proof.
  induction p as [|c p IH]; simpl; intros H; [apply lexed_refl|].
  apply andb_true_iff in H. destruct H as [Hc Hp].
  apply lexed_plain; auto.
Qed.

Lemma is_ws_plain (c : pychar) : is_ws c = true -> plain c = true.
Proof.
  unfold is_ws. intros H. repeat (apply orb_true_iff in H; destruct H as [H|H]);
    apply N.eqb_eq in H; subst; reflexivity.
Qed.

Lemma skip_ws_lexed (s : pystr) : lexed LexOut LexOut s (skip_ws s).
Proof.
  induction s as [|c s IH]; simpl; [apply lexed_refl|].
  destruct (is_ws c) eqn:E; [|apply lexed_refl].
  apply lexed_plain; [now apply is_ws_plain | exact IH].
Qed.

Lemma skip_ws_length (s : pystr) : length (skip_ws s) <= length s.
Proof. eapply lexed_length, skip_ws_lexed. Qed.

Lemma is_digit_plain (c : pychar) : is_digit c = true -> plain c = true.
Proof.
  unfold is_digit, plain, backtick, dquote. intros H.
  apply andb_true_iff in H. destruct H as [H1 H2].
  apply N.leb_le in H1, H2.
  apply andb_true_iff; split; apply negb_true_iff, N.eqb_neq; lia.
Qed.

Lemma span_digits_spec (s d t : pystr) :
  span_digits s = (d, t) -> s = d ++ t /\ forallb plain d = true.
Proof.
  revert d t. induction s as [|c s IH]; simpl; intros d t H.
  - inversion H; subst. split; reflexivity.
  - destruct (is_digit c) eqn:E.
    + destruct (span_digits s) as [d' t'] eqn:Es. inversion H; subst.
      destruct (IH _ _ eq_refl) as [-> Hd]. split; [reflexivity|].
      simpl. now rewrite is_digit_plain, Hd.
    + inversion H; subst. split; reflexivity.
Qed.

Lemma plainly_lexed n (s r : pystr) :
  plainly n s r -> lexed LexOut LexOut s r /\ length r + n <= length s.
Proof.
  intros (p & -> & Hp & Hn). split; [now apply lexed_plain_prefix|].
  rewrite length_app. lia.
Qed.

Lemma plainly_refl (s : pystr) : plainly 0 s s.
Proof. exists []. repeat split; simpl; lia. Qed.

Lemma plainly_cons n (c : pychar) (s r : pystr) :
  plain c = true -> plainly n s r -> plainly (S n) (c :: s) r.
Proof.
  intros Hc (p & -> & Hp & Hn). exists (c :: p). simpl. rewrite Hc, Hp.
  repeat split; lia.
Qed.

Lemma plainly_app n (d s r : pystr) :
  forallb plain d = true -> plainly n s r -> plainly n (d ++ s) r.
Proof.
  intros Hd (p & -> & Hp & Hn). exists (d ++ p).
  rewrite forallb_app, Hd, Hp, length_app, app_assoc. repeat split; lia.
Qed.

Lemma plainly_trans n m (s r t : pystr) :
  plainly n s r -> plainly m r t -> plainly (n + m) s t.
Proof.
  intros (p & -> & Hp & Hn) (p' & -> & Hp' & Hm). exists (p ++ p').
  rewrite forallb_app, Hp, Hp', length_app, app_assoc. repeat split; lia.
Qed.

Lemma plainly_weaken n m (s r : pystr) : m <= n -> plainly n s r -> plainly m s r.
Proof. intros H (p & -> & Hp & Hn). exists p. repeat split; auto; lia. Qed.

Lemma eqb_ch_plain (c : pychar) (a : ascii) :
  N.eqb c (ch a) = true -> plain (ch a) = true -> plain c = true.
Proof. intros H. apply N.eqb_eq in H. now subst. Qed.

Lemma integer_digits_plainly (neg : bool) (s1 : pystr) neg' (d r : pystr) :
  match s1 with
  | c :: r0 =>
      if N.eqb c (ch "0") then Some (neg, [c], r0)
      else if is_digit c
           then let (d0, t) := span_digits r0 in Some (neg, c :: d0, t)
           else None
  | [] => None
  end = Some (neg', d, r) -> plainly 1 s1 r.
Proof.
  destruct s1 as [|c r0]; [discriminate|].
  destruct (N.eqb c (ch "0")) eqn:E0.
  - intros H; inversion H; subst.
    apply plainly_cons; [eapply eqb_ch_plain; eauto | apply plainly_refl].
  - destruct (is_digit c) eqn:Ed; [|discriminate].
    destruct (span_digits r0) as [d0 t] eqn:Es. intros H; inversion H; subst.
    destruct (span_digits_spec _ _ _ Es) as [-> Hd].
    apply plainly_cons; [now apply is_digit_plain|].
    apply plainly_app; [exact Hd | apply plainly_refl].
Qed.

Lemma match_integer_plainly (s : pystr) neg (d r : pystr) :
  match_integer s = Some (neg, d, r) -> plainly 1 s r.
Proof.
  unfold match_integer. destruct s as [|c0 r0]; [discriminate|].
  destruct (N.eqb c0 (ch "-")) eqn:Em; intros H.
  - apply (integer_digits_plainly true r0) in H.
    apply plainly_weaken with (n := 2); [lia|].
    apply plainly_cons; [eapply eqb_ch_plain; eauto | exact H].
  - apply (integer_digits_plainly false (c0 :: r0)) in H. exact H.
Qed.

Lemma match_frac_plainly (s f r : pystr) :
  match_frac s = (f, r) -> plainly 0 s r.
Proof.
  unfold match_frac. destruct s as [|c s']; intros H.
  - inversion H; subst. apply plainly_refl.
  - destruct (N.eqb c (ch ".")) eqn:E.
    + destruct (span_digits s') as [d t] eqn:Es.
      destruct (span_digits_spec _ _ _ Es) as [-> Hd].
      destruct d; inversion H; subst; [apply plainly_refl|].
      apply plainly_weaken with (n := 1); [lia|].
      apply plainly_cons; [eapply eqb_ch_plain; eauto|].
      apply plainly_app with (d := p :: d); [exact Hd | apply plainly_refl].
    + inversion H; subst. apply plainly_refl.
Qed.

Lemma match_exp_plainly (s e r : pystr) :
  match_exp s = (e, r) -> plainly 0 s r.
Proof.
  unfold match_exp. destruct s as [|c s']; intros H.
  - inversion H; subst. apply plainly_refl.
  - destruct (N.eqb c (ch "e") || N.eqb c (ch "E")) eqn:E.
    + assert (Hc : plain c = true).
      { apply orb_true_iff in E. destruct E as [E|E]; eapply eqb_ch_plain; eauto. }
      destruct s' as [|g r'].
      * simpl in H. inversion H; subst. apply plainly_refl.
      * destruct (N.eqb g (ch "+") || N.eqb g (ch "-")) eqn:Eg.
        -- assert (Hg : plain g = true).
           { apply orb_true_iff in Eg. destruct Eg as [Eg|Eg]; eapply eqb_ch_plain; eauto. }
           destruct (span_digits r') as [d t] eqn:Es.
           destruct (span_digits_spec _ _ _ Es) as [-> Hd].
           destruct d; inversion H; subst; [apply plainly_refl|].
           apply plainly_weaken with (n := 2); [lia|].
           apply plainly_cons; [exact Hc|]. apply plainly_cons; [exact Hg|].
           apply plainly_app with (d := p :: d); [exact Hd | apply plainly_refl].
        -- destruct (span_digits (g :: r')) as [d t] eqn:Es.
           destruct (span_digits_spec _ _ _ Es) as [Heq Hd].
           destruct d; inversion H; subst; [apply plainly_refl|].
           rewrite Heq. apply plainly_weaken with (n := 1); [lia|].
           apply plainly_cons; [exact Hc|].
           apply plainly_app with (d := p :: d); [exact Hd | apply plainly_refl].
    + inversion H; subst. apply plainly_refl.
Qed.

Lemma match_number_plainly (s : pystr) (v : json) (r : pystr) :
  match_number s = Some (v, r) -> plainly 1 s r.
Proof.
  unfold match_number.
  destruct (match_integer s) as [[[neg d] r0]|] eqn:Ei; [|discriminate].
  destruct (match_frac r0) as [f r1] eqn:Ef.
  destruct (match_exp r1) as [e r2] eqn:Ee.
  intros H. assert (r = r2) by (destruct f, e; inversion H; reflexivity). subst r2.
  apply match_integer_plainly in Ei. apply match_frac_plainly in Ef.
  apply match_exp_plainly in Ee.
  apply plainly_weaken with (n := 1 + 0 + 0); [lia|].
  eapply plainly_trans; [eapply plainly_trans|]; eauto.
Qed.

Lemma startswith_split (p s : pystr) :
  startswith p s = true -> s = p ++ skipn (length p) s.
Proof.
  revert s. induction p as [|a p IH]; intros s H; [reflexivity|].
  destruct s as [|b s]; [discriminate|]. simpl in H.
  apply andb_true_iff in H. destruct H as [Hab Hp]. apply N.eqb_eq in Hab. subst b.
  simpl. f_equal. now apply IH.
Qed.

Lemma match_literal_plainly (s : pystr) (v : json) (r : pystr) :
  match_literal s = Some (v, r) -> plainly 1 s r.
Proof.
  unfold match_literal.
  repeat match goal with
         | |- (if startswith ?p s then _ else _) = _ -> _ =>
             let E := fresh "E" in
             destruct (startswith p s) eqn:E;
             [ intros H; inversion H; subst;
               apply startswith_split in E;
               exists p; split; [exact E | split; [reflexivity | simpl; lia]]
             | ]
         end.
  discriminate.
Qed.

Lemma lex_step_in_plain (c : pychar) :
  N.eqb c dquote = false -> N.eqb c backslash = false -> N.ltb c 32 = false ->
  lex_step LexIn c = Some LexIn.
Proof. intros H1 H2 H3. unfold lex_step. now rewrite H1, H2, H3. Qed.

Lemma lex_step_in_backslash (c : pychar) :
  N.eqb c backslash = true -> lex_step LexIn c = Some LexEsc.
Proof. intros H. apply N.eqb_eq in H. subst. reflexivity. Qed.

Lemma lex_step_in_hex (c : pychar) v :
  hex_val c = Some v -> lex_step LexIn c = Some LexIn.
Proof.
  unfold hex_val. intros H.
  assert (Hr : (48 <= c <= 57 \/ 97 <= c <= 102 \/ 65 <= c <= 70)%N).
  { destruct ((48 <=? c) && (c <=? 57))%N eqn:E1;
      [apply andb_true_iff in E1; destruct E1 as [A B];
       apply N.leb_le in A, B; lia|].
    destruct ((97 <=? c) && (c <=? 102))%N eqn:E2;
      [apply andb_true_iff in E2; destruct E2 as [A B];
       apply N.leb_le in A, B; lia|].
    destruct ((65 <=? c) && (c <=? 70))%N eqn:E3;
      [apply andb_true_iff in E3; destruct E3 as [A B];
       apply N.leb_le in A, B; lia | discriminate]. }
  apply lex_step_in_plain; [apply N.eqb_neq | apply N.eqb_neq | apply N.ltb_ge];
    unfold dquote, backslash; lia.
Qed.

Lemma hex4_lexed (a b c d : pychar) u st (s r : pystr) :
  hex4 a b c d = Some u ->
  lexed LexIn st s r -> lexed LexIn st (a :: b :: c :: d :: s) r.
Proof.
  unfold hex4. intros H Hs.
  destruct (hex_val a) eqn:Ea; [|discriminate].
  destruct (hex_val b) eqn:Eb; [|discriminate].
  destruct (hex_val c) eqn:Ec; [|discriminate].
  destruct (hex_val d) eqn:Ed; [|discriminate].
  repeat (eapply lexed_cons; [eapply lex_step_in_hex; eassumption|]).
  exact Hs.
Qed.

(** A string literal is read from inside to outside, and ends the text
    it was scanned in one character at least earlier. *)
Lemma scanstring_lexed n :
  forall (s acc str r : pystr),
    length s <= n ->
    scanstring acc s = Some (str, r) ->
    lexed LexIn LexOut s r /\ length r < length s.
Proof.
  induction n as [|n IH]; intros s acc str r Hlen H.
  { destruct s; [discriminate | simpl in Hlen; lia]. }
  destruct s as [|c s1]; [discriminate|].
  cbn [scanstring] in H.
  destruct (N.eqb c dquote) eqn:Eq.
  { inversion H; subst. split; [|simpl; lia].
    eapply lexed_cons; [|apply lexed_refl]. unfold lex_step. now rewrite Eq. }
  destruct (N.eqb c backslash) eqn:Eb.
  - destruct s1 as [|e r1]; [discriminate|].
    simpl in Hlen.
    destruct (N.eqb e (ch "u")) eqn:Eu.
    + destruct r1 as [|h1 [|h2 [|h3 [|h4 r2]]]]; try discriminate.
      destruct (hex4 h1 h2 h3 h4) as [uni|] eqn:Eh; [|discriminate].
      assert (Hr2 : lexed LexEsc LexIn (e :: h1 :: h2 :: h3 :: h4 :: r2) r2).
      { eapply lexed_cons; [reflexivity|]. eapply hex4_lexed; [eassumption|apply lexed_refl]. }
      assert (Hdirect : forall acc', scanstring acc' r2 = Some (str, r) ->
                lexed LexIn LexOut (c :: e :: h1 :: h2 :: h3 :: h4 :: r2) r
                /\ length r < length (c :: e :: h1 :: h2 :: h3 :: h4 :: r2)).
      { intros acc' Hs. simpl in Hlen.
        destruct (IH r2 acc' str r ltac:(lia) Hs) as [Hlex Hlt]. split.
        - eapply lexed_cons; [now apply lex_step_in_backslash|].
          eapply lexed_trans; eassumption.
        - simpl. lia. }
      destruct (is_high_surrogate uni); [|eapply Hdirect; eassumption].
      destruct r2 as [|b [|u [|l1 [|l2 [|l3 [|l4 r3]]]]]];
        try (eapply Hdirect; eassumption).
      destruct (N.eqb b backslash && N.eqb u (ch "u"))%bool eqn:Ebu;
        [|eapply Hdirect; eassumption].
      destruct (hex4 l1 l2 l3 l4) as [uni2|] eqn:El; [|discriminate].
      destruct (is_low_surrogate uni2); [|eapply Hdirect; eassumption].
      apply andb_true_iff in Ebu. destruct Ebu as [Eb2 Eu2].
      simpl in Hlen.
      destruct (IH r3 _ str r ltac:(lia) H) as [Hlex Hlt]. split.
      * eapply lexed_cons; [now apply lex_step_in_backslash|].
        eapply lexed_trans; [exact Hr2|].
        eapply lexed_cons; [now apply lex_step_in_backslash|].
        eapply lexed_cons; [reflexivity|].
        eapply hex4_lexed; eassumption.
      * simpl. lia.
    + destruct (backslash_escape e) as [x|]; [|discriminate].
      destruct (IH r1 _ str r ltac:(lia) H) as [Hlex Hlt]. split.
      * eapply lexed_cons; [now apply lex_step_in_backslash|].
        eapply lexed_cons; [reflexivity | exact Hlex].
      * simpl. lia.
  - destruct (N.ltb c 32) eqn:Ec; [discriminate|].
    simpl in Hlen.
    destruct (IH s1 _ str r ltac:(lia) H) as [Hlex Hlt]. split.
    + eapply lexed_cons; [now apply lex_step_in_plain | exact Hlex].
    + simpl. lia.
Qed.

Section ContainerLemmas.

Variable scan : pystr -> scanned json.
Hypothesis Hok : scan_ok scan.

Lemma array_items_ok fuel :
  forall acc s v r,
    array_items scan fuel acc s = Got v r ->
    lexed LexOut LexOut s r /\ length r < length s.
Proof.
  induction fuel as [|fuel IH]; intros acc s v r H; [discriminate|].
  cbn [array_items] in H.
  destruct (scan s) as [v1 r1| |] eqn:Es; try discriminate.
  destruct (Hok _ _ _ Es) as [L1 N1].
  pose proof (skip_ws_lexed r1) as L2. pose proof (skip_ws_length r1) as N2.
  destruct (skip_ws r1) as [|c r'] eqn:Ew; [discriminate|].
  destruct (N.eqb c (ch "]")) eqn:Ec.
  - inversion H; subst. split.
    + eapply lexed_trans; [exact L1|]. eapply lexed_trans; [exact L2|].
      eapply lexed_plain; [eapply eqb_ch_plain; eauto | apply lexed_refl].
    + simpl in N2. lia.
  - destruct (N.eqb c (ch ",")) eqn:Ek; [|discriminate].
    destruct (IH _ _ _ _ H) as [L3 N3].
    pose proof (skip_ws_length r') as N4. split.
    + eapply lexed_trans; [exact L1|]. eapply lexed_trans; [exact L2|].
      eapply lexed_plain; [eapply eqb_ch_plain; eauto|].
      eapply lexed_trans; [apply skip_ws_lexed | exact L3].
    + simpl in N2. lia.
Qed.

Lemma JSONArray_ok fuel (s : pystr) v r :
  JSONArray scan fuel s = Got v r ->
  lexed LexOut LexOut s r /\ length r <= length s.
Proof.
  unfold JSONArray. intros H.
  pose proof (skip_ws_lexed s) as L1. pose proof (skip_ws_length s) as N1.
  destruct (skip_ws s) as [|c r0]; [discriminate|].
  destruct (N.eqb c (ch "]")) eqn:Ec.
  - inversion H; subst. split.
    + eapply lexed_trans; [exact L1|].
      eapply lexed_plain; [eapply eqb_ch_plain; eauto | apply lexed_refl].
    + simpl in N1. lia.
  - destruct (array_items_ok _ _ _ _ _ H) as [L2 N2]. split.
    + eapply lexed_trans; eassumption.
    + lia.
Qed.

Lemma object_members_ok fuel :
  forall acc s v r,
    object_members scan fuel acc s = Got v r ->
    lexed LexOut LexOut s r /\ length r < length s.
Proof.
  induction fuel as [|fuel IH]; intros acc s v r H; [discriminate|].
  cbn [object_members] in H.
  destruct s as [|q0 r0]; [discriminate|].
  destruct (N.eqb q0 dquote) eqn:Eq; [|discriminate].
  destruct (scanstring [] r0) as [[key r1]|] eqn:Ekey; [|discriminate].
  destruct (scanstring_lexed (length r0) r0 [] _ _ (le_n _) Ekey) as [L1 N1].
  pose proof (skip_ws_lexed r1) as L2. pose proof (skip_ws_length r1) as N2.
  destruct (skip_ws r1) as [|c r2]; [discriminate|].
  destruct (N.eqb c (ch ":")) eqn:Ec; [|discriminate].
  pose proof (skip_ws_lexed r2) as L3. pose proof (skip_ws_length r2) as N3.
  destruct (scan (skip_ws r2)) as [v1 r3| |] eqn:Es; try discriminate.
  destruct (Hok _ _ _ Es) as [L4 N4].
  pose proof (skip_ws_lexed r3) as L5. pose proof (skip_ws_length r3) as N5.
  destruct (skip_ws r3) as [|d r4]; [discriminate|].
  assert (Lhead : forall t, lexed LexOut LexOut r4 t ->
            lexed LexOut LexOut (q0 :: r0) t).
  { intros t Lt.
    eapply lexed_cons; [unfold lex_step; apply N.eqb_eq in Eq; subst; reflexivity|].
    eapply lexed_trans; [exact L1|]. eapply lexed_trans; [exact L2|].
    eapply lexed_plain; [eapply eqb_ch_plain; eauto|].
    eapply lexed_trans; [exact L3|]. eapply lexed_trans; [exact L4|].
    eapply lexed_trans; [exact L5|].
    assert (Hd : plain d = true).
    { destruct (N.eqb d (ch "}")) eqn:E1; [eapply eqb_ch_plain; eauto|].
      destruct (N.eqb d (ch ",")) eqn:E2; [eapply eqb_ch_plain; eauto|].
      discriminate. }
    eapply lexed_plain; eassumption. }
  simpl in N2, N5 |- *.
  destruct (N.eqb d (ch "}")) eqn:Ed.
  - inversion H; subst. split; [apply Lhead, lexed_refl | lia].
  - destruct (N.eqb d (ch ",")) eqn:Ek; [|discriminate].
    destruct (IH _ _ _ _ H) as [L6 N6].
    pose proof (skip_ws_length r4) as N7. split.
    + apply Lhead. eapply lexed_trans; [apply skip_ws_lexed | exact L6].
    + lia.
Qed.

Lemma JSONObject_ok fuel (s : pystr) v r :
  JSONObject scan fuel s = Got v r ->
  lexed LexOut LexOut s r /\ length r <= length s.
Proof.
  unfold JSONObject. intros H.
  pose proof (skip_ws_lexed s) as L1. pose proof (skip_ws_length s) as N1.
  destruct (skip_ws s) as [|c r0]; [discriminate|].
  destruct (N.eqb c (ch "}")) eqn:Ec.
  - inversion H; subst. split.
    + eapply lexed_trans; [exact L1|].
      eapply lexed_plain; [eapply eqb_ch_plain; eauto | apply lexed_refl].
    + simpl in N1. lia.
  - destruct (object_members_ok _ _ _ _ _ H) as [L2 N2]. split.
    + eapply lexed_trans; eassumption.
    + lia.
Qed.

Variable bound : nat.
Hypothesis Htotal : scan_total bound scan.

Lemma array_items_total fuel :
  forall acc s, length s < fuel -> length s < bound ->
                array_items scan fuel acc s <> Deep.
Proof.
  induction fuel as [|fuel IH]; intros acc s Hf Hb; [lia|].
  cbn [array_items].
  destruct (scan s) as [v1 r1| |] eqn:Es; [|discriminate|now apply Htotal in Es].
  destruct (Hok _ _ _ Es) as [_ N1]. pose proof (skip_ws_length r1) as N2.
  destruct (skip_ws r1) as [|c r']; [discriminate|].
  destruct (N.eqb c (ch "]")); [discriminate|].
  destruct (N.eqb c (ch ",")); [|discriminate].
  pose proof (skip_ws_length r') as N3. simpl in N2.
  apply IH; lia.
Qed.

Lemma object_members_total fuel :
  forall acc s, length s < fuel -> length s < bound ->
                object_members scan fuel acc s <> Deep.
Proof.
  induction fuel as [|fuel IH]; intros acc s Hf Hb; [lia|].
  cbn [object_members].
  destruct s as [|q0 r0]; [discriminate|].
  destruct (N.eqb q0 dquote); [|discriminate].
  destruct (scanstring [] r0) as [[key r1]|] eqn:Ekey; [|discriminate].
  destruct (scanstring_lexed (length r0) r0 [] _ _ (le_n _) Ekey) as [_ N1].
  pose proof (skip_ws_length r1) as N2.
  destruct (skip_ws r1) as [|c r2]; [discriminate|].
  destruct (N.eqb c (ch ":")); [|discriminate].
  pose proof (skip_ws_length r2) as N3. simpl in Hf, Hb, N2.
  destruct (scan (skip_ws r2)) as [v1 r3| |] eqn:Es;
    [|discriminate|apply Htotal in Es; [contradiction|lia]].
  destruct (Hok _ _ _ Es) as [_ N4]. pose proof (skip_ws_length r3) as N5.
  destruct (skip_ws r3) as [|d r4]; [discriminate|].
  destruct (N.eqb d (ch "}")); [discriminate|].
  destruct (N.eqb d (ch ",")); [|discriminate].
  pose proof (skip_ws_length r4) as N6. simpl in N5.
  apply IH; lia.
Qed.

End ContainerLemmas.

Lemma scan_once_ok fuel : scan_ok (scan_once fuel).
Proof.
  induction fuel as [|fuel IH]; intros s v r H; [discriminate|].
  cbn [scan_once] in H.
  destruct s as [|c s1]; [discriminate|].
  destruct (N.eqb c dquote) eqn:Eq.
  { destruct (scanstring [] s1) as [[str r']|] eqn:Es; [|discriminate].
    inversion H; subst.
    destruct (scanstring_lexed (length s1) s1 [] _ _ (le_n _) Es) as [L1 N1]. split.
    - eapply lexed_cons; [|exact L1].
      apply N.eqb_eq in Eq; subst; reflexivity.
    - simpl. lia. }
  destruct (N.eqb c (ch "{")) eqn:Eo.
  { destruct (JSONObject_ok _ IH _ _ _ _ H) as [L N]. split.
    - eapply lexed_plain; [eapply eqb_ch_plain; eauto | exact L].
    - simpl. lia. }
  destruct (N.eqb c (ch "[")) eqn:Ea.
  { destruct (JSONArray_ok _ IH _ _ _ _ H) as [L N]. split.
    - eapply lexed_plain; [eapply eqb_ch_plain; eauto | exact L].
    - simpl. lia. }
  assert (Hp : plainly 1 (c :: s1) r).
  { destruct (match_literal (c :: s1)) as [[v' r']|] eqn:El.
    - inversion H; subst. eapply match_literal_plainly; eassumption.
    - destruct (match_number (c :: s1)) as [[v' r']|] eqn:En; [|discriminate].
      inversion H; subst. eapply match_number_plainly; eassumption. }
  apply plainly_lexed in Hp. destruct Hp as [L N]. split; [exact L | lia].
Qed.

(** The recursion budget [S (length s)] of [loads] is never exhausted. *)
Lemma scan_once_never_deep fuel : scan_total fuel (scan_once fuel).
Proof.
  induction fuel as [|fuel IH]; intros s Hlen; [lia|].
  cbn [scan_once].
  destruct s as [|c s1]; [discriminate|]. simpl in Hlen.
  destruct (N.eqb c dquote).
  { destruct (scanstring [] s1) as [[str r']|]; discriminate. }
  destruct (N.eqb c (ch "{")).
  { unfold JSONObject. pose proof (skip_ws_length s1) as N1.
    destruct (skip_ws s1) as [|d r0] eqn:E; [discriminate|].
    destruct (N.eqb d (ch "}")); [discriminate|].
    apply (object_members_total _ (scan_once_ok fuel) _ IH); lia. }
  destruct (N.eqb c (ch "[")).
  { unfold JSONArray. pose proof (skip_ws_length s1) as N1.
    destruct (skip_ws s1) as [|d r0] eqn:E; [discriminate|].
    destruct (N.eqb d (ch "]")); [discriminate|].
    apply (array_items_total _ (scan_once_ok fuel) _ IH); lia. }
  destruct (match_literal (c :: s1)) as [[v' r']|]; [discriminate|].
  destruct (match_number (c :: s1)) as [[v' r']|]; discriminate.
Qed.

Lemma skip_ws_nil_lexed (r : pystr) : skip_ws r = [] -> lex_run LexOut r = Some LexOut.
Proof.
  intros H. destruct (skip_ws_lexed r) as (c & Hc & Hrun). rewrite H, app_nil_r in Hc.
  now subst.
Qed.

(** [json.loads] either returns a value, and then the text is read from
    outside a literal to outside a literal, or raises [JSONDecodeError]. *)
Lemma loads_cases (s : pystr) :
  (exists v, loads s = Ret v /\ lex_run LexOut s = Some LexOut)
  \/ loads s = Raise JSONDecodeError.
Proof.
  unfold loads.
  destruct (startswith [65279%N] s); [now right|].
  pose proof (skip_ws_lexed s) as L1. pose proof (skip_ws_length s) as N1.
  remember (skip_ws s) as s' eqn:Es'. clear Es'.
  destruct (scan_once (S (length s)) s') as [v r| |] eqn:Es.
  - destruct (scan_once_ok _ _ _ _ Es) as [L2 _].
    destruct (skip_ws r) as [|x r'] eqn:Ew; [|now right].
    left. exists v. split; [reflexivity|].
    destruct L1 as (c1 & Hc1 & R1). destruct L2 as (c2 & Hc2 & R2).
    rewrite Hc1, Hc2, lex_run_app, R1, lex_run_app, R2. now apply skip_ws_nil_lexed.
  - now right.
  - exfalso. apply (scan_once_never_deep (S (length s)) s'); [lia | exact Es].
Qed.

Lemma loads_lexed (s : pystr) (v : json) :
  loads s = Ret v -> lex_run LexOut s = Some LexOut.
Proof.
  intros H. destruct (loads_cases s) as [(v' & _ & L)|E]; [exact L | congruence].
Qed.

Lemma loads_unlexed (s : pystr) :
  lex_run LexOut s <> Some LexOut -> loads s = Raise JSONDecodeError.
Proof.
  intros H. destruct (loads_cases s) as [(v' & _ & L)|E]; [contradiction | exact E].
Qed.

(** ** The decoder on concrete texts *)

Example loads_values :
  loads (py "[1, -0, 2.5e3, true, null, NaN, {}, [ ]  ] ")
  = Ret (JList [JInt 1; JInt 0; JFloat (py "2.5e3"); JBool true; JNull;
                JFloat (py "NaN"); JDict []; JList []]).
Proof. vm_compute. reflexivity. Qed.

Example loads_escapes :
  loads ([dquote] ++ py "a\n\u00e9\ud83d\ude00" ++ [dquote])
  = Ret (JStr [97; 10; 233; 128512]%N).
Proof. vm_compute. reflexivity. Qed.

Example loads_duplicate_key :
  loads (py "{" ++ Samples.q "a" ++ py ":1," ++ Samples.q "b" ++ py ":2,"
         ++ Samples.q "a" ++ py ":3}")
  = Ret (JDict [(py "a", JInt 3); (py "b", JInt 2)]).
Proof. vm_compute. reflexivity. Qed.

Example loads_errors :
  loads (py "01") = Raise JSONDecodeError
  /\ loads (py "[1,]") = Raise JSONDecodeError
  /\ loads (py "1e+") = Raise JSONDecodeError
  /\ loads ([dquote] ++ py "a" ++ [9%N] ++ [dquote]) = Raise JSONDecodeError
  /\ loads [] = Raise JSONDecodeError
  /\ loads (py "nul") = Raise JSONDecodeError.
Proof. repeat split; vm_compute; reflexivity. Qed.

(** ** Fences, stripping and slicing *)

Lemma lstrip_app_nonspace (a : pystr) (x : pychar) (b : pystr) :
  isspace x = false -> lstrip (a ++ x :: b) = lstrip a ++ x :: b.
Proof.
  intros Hx. induction a as [|c a IH]; simpl; [now rewrite Hx|].
  destruct (isspace c); [exact IH | reflexivity].
Qed.

Lemma lstrip_incl (a : pystr) (x : pychar) : In x (lstrip a) -> In x a.
Proof.
  induction a as [|c a IH]; simpl; [tauto|].
  destruct (isspace c); simpl; tauto.
Qed.

Lemma lstrip_idem (a : pystr) : lstrip (lstrip a) = lstrip a.
Proof.
  induction a as [|c a IH]; simpl; [reflexivity|].
  destruct (isspace c) eqn:E; [exact IH | simpl; now rewrite E].
Qed.

Lemma rstrip_incl (a : pystr) (x : pychar) : In x (rstrip a) -> In x a.
Proof.
  unfold rstrip. intros H. apply in_rev in H. apply lstrip_incl in H.
  now apply in_rev.
Qed.

Lemma rstrip_app_nonspace (a : pystr) (x : pychar) (b : pystr) :
  isspace x = false -> rstrip (a ++ x :: b) = a ++ x :: rstrip b.
Proof.
  intros Hx. unfold rstrip.
  rewrite rev_app_distr. simpl. rewrite <- app_assoc. simpl.
  rewrite lstrip_app_nonspace by exact Hx.
  rewrite rev_app_distr. simpl. rewrite rev_involutive, <- app_assoc. reflexivity.
Qed.

(** Stripping a text whose first and last non-blank characters are known. *)
Lemma strip_sandwich (a : pystr) (x : pychar) (m : pystr) (y : pychar) (b : pystr) :
  isspace x = false -> isspace y = false ->
  strip (a ++ x :: m ++ y :: b) = lstrip a ++ x :: m ++ y :: rstrip b.
Proof.
  intros Hx Hy. unfold strip. rewrite lstrip_app_nonspace by exact Hx.
  change (lstrip a ++ x :: m ++ y :: b) with (lstrip a ++ (x :: m) ++ y :: b).
  rewrite app_assoc, rstrip_app_nonspace by exact Hy.
  rewrite <- app_assoc. reflexivity.
Qed.

Lemma find_app_first (c : pychar) (a m : pystr) :
  ~ In c a -> find c (a ++ c :: m) = Z.of_nat (length a).
Proof.
  induction a as [|x a IH]; intros Hn; simpl.
  - now rewrite N.eqb_refl.
  - destruct (N.eqb x c) eqn:E.
    + apply N.eqb_eq in E. subst. exfalso. apply Hn. now left.
    + rewrite IH by (intros Hin; apply Hn; now right).
      destruct (Z.ltb_spec (Z.of_nat (length a)) 0); lia.
Qed.

Lemma rfind_app_last (c : pychar) (x b : pystr) :
  ~ In c b -> rfind c (x ++ c :: b) = Z.of_nat (length x).
Proof.
  intros Hn. unfold rfind.
  rewrite rev_app_distr. simpl. rewrite <- app_assoc. simpl.
  rewrite find_app_first by (intros H; apply Hn; now apply in_rev).
  rewrite length_rev, length_app. simpl.
  destruct (Z.ltb_spec (Z.of_nat (length b)) 0); lia.
Qed.

Lemma slice_middle (a t b : pystr) :
  slice (a ++ t ++ b) (Z.of_nat (length a)) (Z.of_nat (length a + length t)) = t.
Proof.
  unfold slice. rewrite Nat2Z.id.
  replace (Z.to_nat (Z.of_nat (length a + length t) - Z.of_nat (length a)))
    with (length t) by lia.
  rewrite skipn_app, skipn_all, Nat.sub_diag. simpl.
  rewrite firstn_app, firstn_all, Nat.sub_diag. simpl. apply app_nil_r.
Qed.

Lemma firstn_as_rev_skipn (n : nat) (s : pystr) :
  firstn (length s - n) s = rev (skipn n (rev s)).
Proof. now rewrite skipn_rev, rev_involutive. Qed.

Lemma rstrip_firstn (n : nat) (s : pystr) :
  rstrip (firstn (length s - n) s) = rev (lstrip (skipn n (rev s))).
Proof. unfold rstrip. now rewrite firstn_as_rev_skipn, rev_involutive. Qed.

Lemma startswith_cons_inv (a : pychar) (p : pystr) (b : pychar) (s : pystr) :
  startswith (a :: p) (b :: s) = true -> b = a /\ startswith p s = true.
Proof.
  simpl. intros H. apply andb_true_iff in H. destruct H as [H1 H2].
  apply N.eqb_eq in H1. now subst.
Qed.

Lemma startswith_ignorecase_json_backtick (p z : pystr) :
  startswith_ignorecase (py "json") (p ++ backtick :: z) = true ->
  exists x1 x2 x3 x4 p', p = x1 :: x2 :: x3 :: x4 :: p'.
Proof.
  destruct p as [|x1 [|x2 [|x3 [|x4 p']]]]; intros H.
  - discriminate.
  - cbn in H. rewrite andb_false_r in H. discriminate.
  - cbn in H. rewrite !andb_false_r in H. discriminate.
  - cbn in H. rewrite !andb_false_r in H. discriminate.
  - eauto 6.
Qed.

Lemma sub_open_fence_shape (P m : pystr) :
  startswith fence (P ++ open_fence ++ lbrace :: m) = true ->
  exists A,
    sub_open_fence (P ++ open_fence ++ lbrace :: m) = A ++ lbrace :: m
    /\ (A = [] \/ exists A', A = A' ++ backtick :: py "json" ++ [newline])
    /\ (forall x, In x A -> In x P \/ In x open_fence).
Proof.
  intros H. unfold sub_open_fence. rewrite H.
  destruct P as [|a [|b [|c p2]]].
  - exists []. split; [reflexivity|]. split; [now left | intros x []].
  - apply startswith_cons_inv in H. destruct H as [-> _].
    exists (backtick :: py "json" ++ [newline]).
    split; [reflexivity|]. split; [right; now exists [] | intros x Hx; right; simpl in *; tauto].
  - apply startswith_cons_inv in H. destruct H as [-> H].
    apply startswith_cons_inv in H. destruct H as [-> _].
    exists ([backtick] ++ backtick :: py "json" ++ [newline]).
    split; [reflexivity|]. split; [right; now exists [backtick] | intros x Hx; right; simpl in *; tauto].
  - apply startswith_cons_inv in H. destruct H as [-> H].
    apply startswith_cons_inv in H. destruct H as [-> H].
    apply startswith_cons_inv in H. destruct H as [-> _].
    change (skipn 3 ((backtick :: backtick :: backtick :: p2) ++ open_fence ++ lbrace :: m))
      with (p2 ++ backtick :: ([backtick; backtick] ++ py "json" ++ [newline]) ++ lbrace :: m).
    set (z := ([backtick; backtick] ++ py "json" ++ [newline]) ++ lbrace :: m).
    assert (Hshape : forall p, (forall x, In x p -> In x p2) ->
              exists A, lstrip (p ++ backtick :: z) = A ++ lbrace :: m
                /\ (A = [] \/ exists A', A = A' ++ backtick :: py "json" ++ [newline])
                /\ (forall x, In x A ->
                      In x (backtick :: backtick :: backtick :: p2) \/ In x open_fence)).
    { intros p Hp. exists (lstrip p ++ open_fence). split; [|split].
      - rewrite lstrip_app_nonspace by reflexivity. subst z.
        unfold open_fence, fence. rewrite <- !app_assoc. reflexivity.
      - right. exists (lstrip p ++ [backtick; backtick]).
        unfold open_fence, fence. rewrite <- !app_assoc. reflexivity.
      - intros x Hx. apply in_app_or in Hx. destruct Hx as [Hx|Hx]; [|now right].
        left. right. right. right. apply Hp. now apply lstrip_incl. }
    destruct (startswith_ignorecase (py "json") (p2 ++ backtick :: z)) eqn:Ej.
    + apply startswith_ignorecase_json_backtick in Ej.
      destruct Ej as (x1 & x2 & x3 & x4 & p' & ->).
      apply (Hshape p'). intros x Hx. simpl. tauto.
    + apply (Hshape p2). tauto.
Qed.

Lemma lstrip_fixed_head (c : pychar) (r : pystr) :
  lstrip (c :: r) = c :: r -> isspace c = false.
Proof.
  simpl. destruct (isspace c); [|reflexivity]. intros H.
  pose proof (lstrip_length r) as L. rewrite H in L. simpl in L. lia.
Qed.

Lemma sub_close_fence_shape (X Q : pystr) :
  lstrip (rev Q) = rev Q ->
  exists B,
    sub_close_fence (X ++ rbrace :: close_fence ++ Q) = X ++ rbrace :: B
    /\ (B = [] \/ exists B', B = newline :: backtick :: B')
    /\ (forall x, In x B -> In x close_fence \/ In x Q).
Proof.
  intros HQ. unfold sub_close_fence, endswith.
  rewrite !rstrip_firstn.
  assert (Hrev : rev (X ++ rbrace :: close_fence ++ Q)
                 = rev Q ++ backtick :: backtick :: backtick :: newline :: rbrace :: rev X).
  { rewrite rev_app_distr. simpl. rewrite <- !app_assoc. reflexivity. }
  rewrite Hrev.
  change (rev fence) with fence.
  change (rev (fence ++ [newline])) with (newline :: fence).
  assert (HQR : Q = rev (rev Q)) by (now rewrite rev_involutive).
  remember (rev Q) as R eqn:ER. clear ER. subst Q.
  assert (Hnorm : forall Y, rev (Y ++ newline :: rbrace :: rev X) = X ++ rbrace :: newline :: rev Y).
  { intros Y. rewrite rev_app_distr. simpl. rewrite rev_involutive, <- !app_assoc.
    reflexivity. }
  destruct R as [|r1 R'].
  - exists []. split; [|split; [now left | intros x []]].
    simpl. rewrite rev_involutive. reflexivity.
  - pose proof (lstrip_fixed_head _ _ HQ) as Hr1.
    destruct (startswith fence ((r1 :: R') ++ backtick :: backtick :: backtick
                                  :: newline :: rbrace :: rev X)) eqn:E.
    + destruct R' as [|r2 [|r3 R'']].
      * apply startswith_cons_inv in E. destruct E as [-> _].
        exists [newline; backtick]. split; [|split].
        -- apply (Hnorm [backtick]).
        -- right. now exists [].
        -- intros x Hx. simpl in *. tauto.
      * apply startswith_cons_inv in E. destruct E as [-> E].
        apply startswith_cons_inv in E. destruct E as [-> _].
        exists [newline; backtick; backtick]. split; [|split].
        -- apply (Hnorm [backtick; backtick]).
        -- right. now exists [backtick].
        -- intros x Hx. simpl in *. tauto.
      * apply startswith_cons_inv in E. destruct E as [-> E].
        apply startswith_cons_inv in E. destruct E as [-> E].
        apply startswith_cons_inv in E. destruct E as [-> _].
        exists (newline :: rev (lstrip R'' ++ [backtick; backtick; backtick])).
        split; [|split].
        -- change (skipn 3 ((backtick :: backtick :: backtick :: R'') ++
                      backtick :: backtick :: backtick :: newline :: rbrace :: rev X))
             with (R'' ++ backtick :: backtick :: backtick :: newline :: rbrace :: rev X).
           rewrite lstrip_app_nonspace by reflexivity.
           change (lstrip R'' ++ backtick :: backtick :: backtick :: newline :: rbrace :: rev X)
             with (lstrip R'' ++ [backtick; backtick; backtick] ++ newline :: rbrace :: rev X).
           rewrite app_assoc. apply Hnorm.
        -- right. exists ([backtick; backtick] ++ rev (lstrip R'')).
           rewrite rev_app_distr. reflexivity.
        -- intros x [<-|Hx]; [left; simpl; tauto|].
           apply in_rev in Hx. apply in_app_or in Hx. destruct Hx as [Hx|Hx].
           ++ right. apply in_rev. rewrite rev_involutive.
              right. right. right. now apply lstrip_incl.
           ++ left. simpl in *. tauto.
    + assert (E2 : startswith (newline :: fence)
                     ((r1 :: R') ++ backtick :: backtick :: backtick
                        :: newline :: rbrace :: rev X) = false).
      { destruct (N.eqb newline r1) eqn:En.
        - apply N.eqb_eq in En. subst r1. discriminate.
        - cbn [startswith app]. rewrite En. reflexivity. }
      rewrite E2. exists (close_fence ++ rev (r1 :: R')). split; [|split].
      * reflexivity.
      * right. now exists ([backtick; backtick] ++ rev (r1 :: R')).
      * intros x Hx. apply in_app_or in Hx. tauto.
Qed.

(** ** The response parser *)

Lemma safe_extract_json_unfold (raw : pystr) :
  safe_extract_json raw
  = decode_or_slice (if startswith fence (strip raw)
                     then sub_close_fence (sub_open_fence (strip raw))
                     else strip raw).
Proof. reflexivity. Qed.

Lemma lex_run_fence_tail st (z : pystr) :
  lex_run st (backtick :: py "json" ++ newline :: z) = None.
Proof. destruct st; reflexivity. Qed.

Lemma decode_or_slice_shape (A body B : pystr) (v : json) :
  loads (lbrace :: body ++ [rbrace]) = Ret v ->
  (A = [] \/ exists A', A = A' ++ backtick :: py "json" ++ [newline]) ->
  (B = [] \/ exists B', B = newline :: backtick :: B') ->
  ~ In lbrace A -> ~ In rbrace B ->
  decode_or_slice (A ++ (lbrace :: body ++ [rbrace]) ++ B) = Ret v.
Proof.
  intros Hv HA HB HnA HnB. unfold decode_or_slice.
  set (t := lbrace :: body ++ [rbrace]) in *.
  assert (Hfallback :
            loads (A ++ t ++ B) = Raise JSONDecodeError ->
            match loads (A ++ t ++ B) with
            | Ret v0 => Ret v0
            | Raise JSONDecodeError =>
                let start := find lbrace (A ++ t ++ B) in
                let end_ := rfind rbrace (A ++ t ++ B) in
                if (negb (start =? -1) && negb (end_ =? -1) && (end_ >? start))%Z
                then loads (slice (A ++ t ++ B) start (end_ + 1))
                else Raise JSONDecodeError
            | Raise e => Raise e
            end = Ret v).
  { intros ->. cbv zeta.
    assert (Hstart : find lbrace (A ++ t ++ B) = Z.of_nat (length A)).
    { subst t. cbn [app]. now apply find_app_first. }
    assert (Hend : rfind rbrace (A ++ t ++ B) = Z.of_nat (length (A ++ lbrace :: body))).
    { subst t. cbn [app]. rewrite <- app_assoc. cbn [app].
      replace (A ++ lbrace :: body ++ rbrace :: B)
        with ((A ++ lbrace :: body) ++ rbrace :: B)
        by (rewrite <- app_assoc; reflexivity).
      now apply rfind_app_last. }
    rewrite Hstart, Hend.
    assert (Hlen : length (A ++ lbrace :: body) + 1 = length A + length t).
    { subst t. rewrite length_app. simpl. rewrite length_app. simpl. lia. }
    replace (Z.of_nat (length (A ++ lbrace :: body)) + 1)%Z
      with (Z.of_nat (length A + length t)) by lia.
    rewrite slice_middle, Hv.
    replace (negb (Z.of_nat (length A) =? -1)%Z) with true
      by (symmetry; apply negb_true_iff, Z.eqb_neq; lia).
    replace (negb (Z.of_nat (length (A ++ lbrace :: body)) =? -1)%Z) with true
      by (symmetry; apply negb_true_iff, Z.eqb_neq; lia).
    replace (Z.of_nat (length (A ++ lbrace :: body)) >? Z.of_nat (length A))%Z with true.
    - reflexivity.
    - symmetry. apply Z.gtb_lt. rewrite length_app. simpl. lia. }
  destruct HA as [->|(A' & ->)].
  - destruct HB as [->|(B' & ->)].
    + simpl. rewrite app_nil_r. fold t. now rewrite Hv.
    + apply Hfallback. apply loads_unlexed.
      cbn [app]. rewrite lex_run_app, (loads_lexed _ _ Hv). discriminate.
  - apply Hfallback. apply loads_unlexed.
    rewrite <- app_assoc, lex_run_app.
    destruct (lex_run LexOut A'); [|discriminate].
    change ((backtick :: py "json" ++ [newline]) ++ t ++ B)
      with (backtick :: py "json" ++ newline :: t ++ B).
    rewrite lex_run_fence_tail. discriminate.
Qed.

(** *** Decoding what was serialised *)

Lemma escape_char_control (c : pychar) :
  (c < 32)%N ->
  N.eqb c 10 = false -> N.eqb c 13 = false -> N.eqb c 9 = false ->
  N.eqb c 8 = false -> N.eqb c 12 = false ->
  hex4 (ch "0") (ch "0") (hex_digit (N.div c 16)) (hex_digit (N.modulo c 16))
  = Some c
  /\ is_high_surrogate c = false.
Proof.
  intros Hlt. destruct c as [|p]; [intros; split; reflexivity|].
  repeat match goal with
         | q : positive |- _ => destruct q as [q|q|]; try (exfalso; lia)
         end;
    intros; try discriminate; split; reflexivity.
Qed.

Lemma scanstring_escaped (s : pystr) :
  forall acc rest,
    scanstring acc (flat_map escape_char s ++ dquote :: rest)
    = Some (acc ++ s, rest).
Proof.
  induction s as [|c s IH]; intros acc rest.
  - simpl. now rewrite app_nil_r.
  - cbn [flat_map]. rewrite <- app_assoc.
    replace (acc ++ c :: s) with ((acc ++ [c]) ++ s)
      by (rewrite <- app_assoc; reflexivity).
    unfold escape_char.
    destruct (N.eqb c dquote) eqn:E1.
    { apply N.eqb_eq in E1. subst c. apply IH. }
    destruct (N.eqb c backslash) eqn:E2.
    { apply N.eqb_eq in E2. subst c. apply IH. }
    destruct (N.eqb c 10) eqn:E3.
    { apply N.eqb_eq in E3. subst c. apply IH. }
    destruct (N.eqb c 13) eqn:E4.
    { apply N.eqb_eq in E4. subst c. apply IH. }
    destruct (N.eqb c 9) eqn:E5.
    { apply N.eqb_eq in E5. subst c. apply IH. }
    destruct (N.eqb c 8) eqn:E6.
    { apply N.eqb_eq in E6. subst c. apply IH. }
    destruct (N.eqb c 12) eqn:E7.
    { apply N.eqb_eq in E7. subst c. apply IH. }
    destruct (N.ltb c 32) eqn:E8.
    + apply N.ltb_lt in E8.
      destruct (escape_char_control c E8 E3 E4 E5 E6 E7) as [Hhex Hhigh].
      cbn [app scanstring].
      change (N.eqb backslash dquote) with false.
      change (N.eqb backslash backslash) with true.
      change (N.eqb (ch "u") (ch "u")) with true.
      cbv iota. rewrite Hhex, Hhigh. apply IH.
    + cbn [app scanstring]. rewrite E1, E2, E8. apply IH.
Qed.

Lemma scan_dumps_summary (a : ArticleSummary) (fuel : nat) (rest : pystr) :
  5 <= fuel ->
  scan_once fuel (dumps_summary a ++ rest) = Got (model_dump a) rest.
Proof.
  intros Hf. destruct fuel as [|[|[|[|[|f]]]]]; try lia. clear Hf.
  unfold dumps_summary, dumps_body, member, encode_basestring.
  repeat (rewrite <- ?app_assoc; cbn [app]).
  cbn. rewrite scanstring_escaped.
  cbn. rewrite scanstring_escaped.
  cbn. rewrite scanstring_escaped.
  cbn. rewrite scanstring_escaped.
  reflexivity.
Qed.

Lemma loads_dumps_summary (a : ArticleSummary) :
  loads (dumps_summary a) = Ret (model_dump a).
Proof.
  unfold loads.
  change (startswith [65279%N] (dumps_summary a)) with false.
  change (skip_ws (dumps_summary a)) with (dumps_summary a).
  rewrite <- (app_nil_r (dumps_summary a)) at 2.
  rewrite scan_dumps_summary; [reflexivity|].
  unfold dumps_summary, dumps_body, member. simpl. lia.
Qed.

Lemma ArticleSummary_of_model_dump (a : ArticleSummary) :
  ArticleSummary_of (model_dump a) = Ret a.
Proof. destruct a. reflexivity. Qed.

Lemma fenced_text_extracts (before after body : pystr) (v : json) :
  loads (lbrace :: body ++ [rbrace]) = Ret v ->
  ~ In lbrace before ->
  ~ In rbrace after ->
  safe_extract_json (before ++ fenced (lbrace :: body ++ [rbrace]) ++ after)
  = Ret v.
Proof.
  intros Hv Hb Ha.
  rewrite safe_extract_json_unfold.
  set (t := lbrace :: body ++ [rbrace]) in *.
  assert (Hstrip : strip (before ++ fenced t ++ after)
                   = lstrip before ++ open_fence ++ lbrace :: (body ++ rbrace :: close_fence ++ rstrip after)).
  { replace (before ++ fenced t ++ after)
      with (before ++ backtick ::
              ([backtick; backtick] ++ py "json" ++ [newline] ++ t ++ [newline; backtick; backtick])
              ++ backtick :: after).
    - rewrite strip_sandwich by reflexivity. subst t.
      unfold open_fence, close_fence, fence. cbn [app].
      repeat (rewrite <- ?app_assoc; cbn [app]). reflexivity.
    - unfold fenced, open_fence, close_fence, fence. cbn [app].
      repeat (rewrite <- ?app_assoc; cbn [app]). reflexivity. }
  rewrite Hstrip.
  assert (HQ : lstrip (rev (rstrip after)) = rev (rstrip after)).
  { unfold rstrip. rewrite rev_involutive. apply lstrip_idem. }
  assert (Hclose : forall A,
            (A = [] \/ exists A', A = A' ++ backtick :: py "json" ++ [newline]) ->
            ~ In lbrace A ->
            forall B,
              (B = [] \/ exists B', B = newline :: backtick :: B') ->
              (forall x, In x B -> In x close_fence \/ In x (rstrip after)) ->
              decode_or_slice (A ++ t ++ B) = Ret v).
  { intros A HA HnA B HB HinB. apply decode_or_slice_shape; auto.
    intros Hin. apply HinB in Hin. destruct Hin as [Hin|Hin].
    - simpl in Hin. intuition discriminate.
    - apply Ha. now apply rstrip_incl. }
  destruct (startswith fence _) eqn:Efence.
  - destruct (sub_open_fence_shape _ _ Efence) as (A & -> & HA & HinA).
    replace (A ++ lbrace :: body ++ rbrace :: close_fence ++ rstrip after)
      with ((A ++ lbrace :: body) ++ rbrace :: close_fence ++ rstrip after)
      by (rewrite <- app_assoc; reflexivity).
    destruct (sub_close_fence_shape (A ++ lbrace :: body) _ HQ) as (B & -> & HB & HinB).
    replace ((A ++ lbrace :: body) ++ rbrace :: B) with (A ++ t ++ B)
      by (subst t; cbn [app]; rewrite <- !app_assoc; reflexivity).
    apply Hclose; auto.
    intros Hin. apply HinA in Hin. destruct Hin as [Hin|Hin].
    + apply Hb. now apply lstrip_incl.
    + simpl in Hin. intuition discriminate.
  - replace (lstrip before ++ open_fence ++ lbrace :: body ++ rbrace :: close_fence ++ rstrip after)
      with ((lstrip before ++ open_fence) ++ t ++ (close_fence ++ rstrip after))
      by (subst t; cbn [app]; rewrite <- !app_assoc; reflexivity).
    apply Hclose.
    + right. exists (lstrip before ++ [backtick; backtick]).
      unfold open_fence, fence. rewrite <- !app_assoc. reflexivity.
    + intros Hin. apply in_app_or in Hin. destruct Hin as [Hin|Hin].
      * apply Hb. now apply lstrip_incl.
      * simpl in Hin. intuition discriminate.
    + right. now exists ([backtick; backtick] ++ rstrip after).
    + intros x Hx. apply in_app_or in Hx. tauto.
Qed.

(** C3, amended.  Put any commentary around a fenced [json] block that
    has no opening brace before the block and no closing brace after it.
    Then, for every ArticleSummary, [safe_extract_json] applied to the
    commentary around its serialised text returns the object that was
    serialised, which validates to the same summary.  More generally the
    block may hold any text that starts with an opening brace, ends with a
    closing brace and that [json.loads] decodes: its value is returned. *)
Theorem fenced_reply_extracts_same_object :
  forall (before after : pystr),
    ~ In lbrace before ->
    ~ In rbrace after ->
    (forall a : ArticleSummary,
        safe_extract_json (before ++ fenced (dumps_summary a) ++ after)
        = Ret (model_dump a)
        /\ ArticleSummary_of (model_dump a) = Ret a)
    /\ (forall (body : pystr) (v : json),
          loads (lbrace :: body ++ [rbrace]) = Ret v ->
          safe_extract_json
            (before ++ fenced (lbrace :: body ++ [rbrace]) ++ after)
          = Ret v).
Proof.
  intros before after Hb Ha. split.
  - intros a. split; [|apply ArticleSummary_of_model_dump].
    apply fenced_text_extracts; [apply loads_dumps_summary | exact Hb | exact Ha].
  - intros body v Hv. now apply fenced_text_extracts.
Qed.

Lemma fenced_reply_extracts_witness :
  safe_extract_json
    (py "Berikut ringkasannya: " ++ fenced (dumps_summary Samples.summary_X)
     ++ py " Semoga membantu.")
  = Ret (model_dump Samples.summary_X)
  /\ ArticleSummary_of (model_dump Samples.summary_X) = Ret Samples.summary_X.
Proof.
  refine (proj1 (fenced_reply_extracts_same_object
                   (py "Berikut ringkasannya: ") (py " Semoga membantu.") _ _)
            Samples.summary_X).
  - intros H. vm_compute in H. intuition discriminate.
  - intros H. vm_compute in H. intuition discriminate.
Defined.

(** C3 as stated fails: commentary with a brace before the block.  The
    text between the first opening brace and the last closing brace is not
    JSON, and [safe_extract_json] raises. *)
Lemma fenced_reply_with_brace_in_commentary :
  loads (dumps_summary Samples.summary_X) = Ret (model_dump Samples.summary_X)
  /\ ArticleSummary_of (model_dump Samples.summary_X) = Ret Samples.summary_X
  /\ safe_extract_json
       (py "Ringkasan {versi 1}: " ++ fenced (dumps_summary Samples.summary_X)
        ++ py " Semoga membantu.")
     = Raise JSONDecodeError.
Proof. repeat split; vm_compute; reflexivity. Qed.

(** Scenarios C and D of the specification. *)
Example scenario_C :
  safe_extract_json (fenced Samples.summary_json) = Ret Samples.summary_object
  /\ ArticleSummary_of Samples.summary_object = Ret Samples.summary_X.
Proof. split; vm_compute; reflexivity. Qed.

Example scenario_D :
  safe_extract_json (py "Tentu, ini hasilnya: " ++ Samples.summary_json
                     ++ py " Ada lagi?")
  = Ret Samples.summary_object.
Proof. vm_compute. reflexivity. Qed.

(** Surrounding brackets instead of a fence make valid JSON of another
    shape: the strict attempt succeeds with a list. *)
Example bracketed_reply_is_a_list :
  safe_extract_json (py "[" ++ Samples.summary_json ++ py "]")
  = Ret (JList [Samples.summary_object]).
Proof. vm_compute. reflexivity. Qed.


Lemma check_field_spec (d : list (pystr * json)) (f : pystr) :
  match check_field d f with
  | inl v => dict_get d f = Some (JStr v)
  | inr Missing => dict_get d f = None
  | inr StringType => exists x, dict_get d f = Some x /\ forall v, x <> JStr v
  end.
Proof.
  unfold check_field. destruct (dict_get d f) as [[]|]; eauto;
    eexists; (split; [reflexivity | discriminate]).
Qed.

(** X2.  The four fields of a validated summary are the strings the
    decoded object holds under the four keys. *)
Theorem validated_summary_has_four_string_fields :
  forall (v : json) (a : ArticleSummary),
    ArticleSummary_of v = Ret a ->
    exists d, v = JDict d
      /\ dict_get d (py "judul") = Some (JStr (judul a))
      /\ dict_get d (py "tanggal") = Some (JStr (tanggal a))
      /\ dict_get d (py "penulis") = Some (JStr (penulis a))
      /\ dict_get d (py "ringkasan") = Some (JStr (ringkasan a)).
Proof.
  intros v a H. destruct v as [| | | | |l|d]; try discriminate.
  exists d. split; [reflexivity|]. unfold ArticleSummary_of in H.
  pose proof (check_field_spec d (py "judul")) as H1.
  pose proof (check_field_spec d (py "tanggal")) as H2.
  pose proof (check_field_spec d (py "penulis")) as H3.
  pose proof (check_field_spec d (py "ringkasan")) as H4.
  destruct (check_field d (py "judul")); [|discriminate].
  destruct (check_field d (py "tanggal")); [|discriminate].
  destruct (check_field d (py "penulis")); [|discriminate].
  destruct (check_field d (py "ringkasan")); [|discriminate].
  inversion H; subst. simpl. auto.
Qed.

Lemma validated_summary_witness :
  exists d, Samples.summary_object = JDict d
    /\ dict_get d (py "judul") = Some (JStr (py "X"))
    /\ dict_get d (py "tanggal") = Some (JStr (py "2024-01-01"))
    /\ dict_get d (py "penulis") = Some (JStr (py "Y"))
    /\ dict_get d (py "ringkasan") = Some (JStr (py "Z Z Z Z Z")).
Proof.
  exact (validated_summary_has_four_string_fields
           Samples.summary_object Samples.summary_X eq_refl).
Defined.

(** C4, at the failing input.  The model answers with an object that has
    all four fields and an empty synopsis: [summarize] succeeds and the
    summary it hands out has an empty [ringkasan].  The self-hosted variant
    puts "tidak tersedia" in place of an empty synopsis. *)
Theorem empty_synopsis_is_accepted :
  let w := Samples.fallback_world 200 Samples.empty_synopsis_json in
  outcome (summarize Samples.one_page_parser Samples.plain_str w
             (py "example.com/a") (py "formal"))
  = Ret (Success (mkArticleSummary (py "X") (py "2024-01-01") (py "Y") [])
           (py "https://example.com/a") (py "formal") (style_lookup (py "formal")))
  /\ outcome (Rnd.summarize_with_ollama Samples.silent_ollama_world Samples.long_text)
     = Ret (mkArticleSummary (py "tidak tersedia") (py "tidak tersedia")
              (py "tidak tersedia") (py "tidak tersedia")).
Proof. split; vm_compute; reflexivity. Qed.


(** ** End-to-end scenarios of the specification *)


(** A reply that is no JSON, and replies of the wrong shape, end as
    failures; their texts differ only after the common prefix. *)
Example failures_of_the_parser :
  outcome (summarize Samples.one_page_parser Samples.plain_str
             (Samples.fallback_world 200 (py "Maaf, saya tidak bisa."))
             (py "example.com/a") (py "formal"))
  = Ret (Failure (py "Gagal memproses artikel: Expecting value"))
  /\ outcome (summarize Samples.one_page_parser Samples.plain_str
                (Samples.fallback_world 200 Samples.no_author_json)
                (py "example.com/a") (py "formal"))
     = Ret (Failure (py "Gagal memproses artikel: validation error for ArticleSummary"))
  /\ outcome (summarize_with_gemini
                (Samples.fallback_world 200 Samples.no_author_json)
                Samples.long_text (py "formal"))
     = Raise (ValidationError [(py "penulis", Missing)])
  /\ outcome (summarize_with_gemini
                (Samples.fallback_world 200 Samples.numeric_title_json)
                Samples.long_text (py "formal"))
     = Raise (ValidationError [(py "judul", StringType)])
  /\ outcome (summarize_with_gemini
                (Samples.fallback_world 200 (py "[1, 2]"))
                Samples.long_text (py "formal"))
     = Raise TypeError.
Proof. repeat split; vm_compute; reflexivity. Qed.

(* ================================================================== *)
(** * Further properties of the code *)
(* ================================================================== *)

(** ** The orchestrator of main.py *)

Lemma startswith_app (p s : pystr) : startswith p (p ++ s) = true.
Proof.
  induction p as [|a p IH]; [reflexivity|]. simpl. now rewrite N.eqb_refl, IH.
Qed.

(** X4.  The URL handed to the fetcher always starts with [http://] or
    [https://]: a URL that has one of the two is kept, any other one
    (an upper-case scheme included) gets [https://] in front; normalising
    twice changes nothing more. *)
Theorem normalize_url_gives_scheme :
  forall url : pystr,
    has_scheme (normalize_url url) = true
    /\ (has_scheme url = true -> normalize_url url = url)
    /\ (has_scheme url = false -> normalize_url url = py "https://" ++ url)
    /\ normalize_url (normalize_url url) = normalize_url url.
Proof.
  intros url.
  assert (H1 : has_scheme (normalize_url url) = true).
  { unfold normalize_url. fold (has_scheme url).
    destruct (has_scheme url) eqn:E; [exact E|].
    unfold has_scheme. rewrite (startswith_app (py "https://") url).
    apply orb_true_r. }
  split; [exact H1|]. split; [|split].
  - intros H. unfold normalize_url. fold (has_scheme url). now rewrite H.
  - intros H. unfold normalize_url. fold (has_scheme url). now rewrite H.
  - unfold normalize_url at 1. fold (has_scheme (normalize_url url)).
    now rewrite H1.
Qed.

Lemma summarize_after_failed_fetch html_parser str_of_exn (w : world)
  (url style : pystr) (tr : list event) (e : exn) :
  style_known style = true ->
  crawl_url html_parser w (normalize_url url) = (tr, Raise e) ->
  summarize html_parser str_of_exn w url style
  = (tr, Ret (Failure (failed_prefix ++ str_of_exn e))).
Proof.
  intros Hk Hfetch. unfold summarize, summarize_body. rewrite Hk.
  cbv beta iota delta [negb]. unfold bind at 1. rewrite Hfetch.
  unfold try_except, ret. now rewrite app_nil_r.
Qed.

(** X5.  Whatever happens, [summarize] makes at most three network calls,
    in this order: the crawl, the plain GET (time-out 30), the post to the
    generation endpoint (time-out 60); crawl and GET carry the normalised
    URL.  The log is empty exactly when the style is not registered, and
    the endpoint is called at most once and always last. *)
Theorem summarize_call_log_shape :
  forall html_parser str_of_exn (w : world) (url style : pystr),
    let u := normalize_url url in
    let log := calls (summarize html_parser str_of_exn w url style) in
    (log = [] <-> style_known style = false)
    /\ (log = []
        \/ log = [Crawl u]
        \/ log = [Crawl u; HttpGet u 30]
        \/ (exists payload, log = [Crawl u; HttpPost GEMINI_URL payload 60])
        \/ (exists payload,
              log = [Crawl u; HttpGet u 30; HttpPost GEMINI_URL payload 60])).
Proof.
  intros hp str w url style u log. subst u log.
  destruct (style_known style) eqn:Hk.
  - pose proof (crawl_url_calls hp w (normalize_url url)) as Hc.
    destruct (crawl_url hp w (normalize_url url)) as [tr [text_|e]] eqn:Hf.
    + rewrite (summarize_after_fetch hp str w url style text_ tr Hk Hf).
      simpl in Hc.
      destruct (negb (nonempty text_) || (length (strip text_) <? 100)).
      * simpl. split; [split; [|discriminate]|].
        -- destruct Hc as [-> | ->]; discriminate.
        -- destruct Hc as [-> | ->]; auto.
      * rewrite summarize_with_gemini_calls. unfold calls. cbn [fst].
        split; [split; [|discriminate]|].
        -- destruct Hc as [-> | ->]; discriminate.
        -- destruct Hc as [-> | ->]; cbn [app].
           ++ right. right. right. left. eexists. reflexivity.
           ++ right. right. right. right. eexists. reflexivity.
    + rewrite (summarize_after_failed_fetch hp str w url style tr e Hk Hf).
      simpl in Hc |- *. split; [split; [|discriminate]|].
      * destruct Hc as [-> | ->]; discriminate.
      * destruct Hc as [-> | ->]; auto.
  - unfold summarize, summarize_body. rewrite Hk. simpl. split; [tauto | now left].
Qed.


(** ** The fetcher of main.py *)

(** X7.  When the crawler returns, its markdown is preferred: a non-empty
    markdown is returned as it is, not cleaned, and a non-empty cleaned
    HTML is used only when the markdown is missing or empty, and then goes
    through [clean_html].  In both cases the crawl is the only network
    call. *)
Theorem crawl_prefers_markdown :
  forall html_parser (w : world) (url : pystr) (res : crawl_result),
    crawler_arun w url = Ret res ->
    (forall c md, markdown res = Some (c :: md) ->
       crawl_url html_parser w url = ([Crawl url], Ret (c :: md)))
    /\ (forall c html,
          truthy (markdown res) = None ->
          cleaned_html res = Some (c :: html) ->
          crawl_url html_parser w url
          = ([Crawl url], Ret (clean_html html_parser (c :: html)))).
Proof.
  intros hp w url res Hres. split.
  - intros c md Hmd. unfold crawl_url, rich_crawl. run_io.
    rewrite Hres, Hmd. reflexivity.
  - intros c html Hmd Hhtml. unfold crawl_url, rich_crawl. run_io.
    rewrite Hres. cbv beta iota. rewrite Hmd, Hhtml. reflexivity.
Qed.

Lemma crawl_prefers_markdown_witness :
  crawl_url Samples.one_page_parser Samples.markdown_world (py "https://example.com/a")
  = ([Crawl (py "https://example.com/a")], Ret (py "# Judul")).
Proof.
  apply (proj1 (crawl_prefers_markdown Samples.one_page_parser
                  Samples.markdown_world (py "https://example.com/a")
                  {| markdown := Some (py "# Judul");
                     cleaned_html := Some (py "<html>") |} eq_refl)
           35%N (skipn 1 (py "# Judul"))).
  reflexivity.
Defined.

(** ** [summarize_with_gemini] *)






Lemma getitem_Ret (v : json) (k : pystr) (x : json) :
  getitem v k = Ret x -> exists d, v = JDict d /\ dict_get d k = Some x.
Proof.
  destruct v as [| | | | | |d]; try discriminate. cbn [getitem].
  destruct (dict_get d k) eqn:E; [|discriminate].
  intros H. inversion H; subst. eauto.
Qed.

Lemma getitem0_Ret (v x : json) :
  getitem0 v = Ret x ->
  (exists l, v = JList (x :: l))
  \/ (exists c r, v = JStr (c :: r) /\ x = JStr [c]).
Proof.
  destruct v as [| | | |t|l|d]; try discriminate.
  - destruct t as [|c r]; [discriminate|]. intros H. inversion H. right. eauto.
  - destruct l as [|y l]; [discriminate|]. intros H. inversion H. left. eauto.
Qed.

Lemma str_strip_Ret (v : json) (r : pystr) :
  str_strip v = Ret r -> exists t, v = JStr t /\ r = strip t.
Proof.
  destruct v; try discriminate. intros H. inversion H. eauto.
Qed.

(** X10.  The reply text is found exactly when the decoded body is an
    object whose [candidates] is a list that starts with an object, whose
    [content] is an object, whose [parts] is a list that starts with an
    object, whose [text] is a string; the reply text is that string,
    stripped.  Further candidates, parts and keys are ignored. *)
Theorem reply_text_shape :
  forall (data : json) (raw_text : pystr),
    reply_text data = Ret raw_text
    <-> exists d c0 cs content p0 ps t,
          data = JDict d
          /\ dict_get d (py "candidates") = Some (JList (JDict c0 :: cs))
          /\ dict_get c0 (py "content") = Some (JDict content)
          /\ dict_get content (py "parts") = Some (JList (JDict p0 :: ps))
          /\ dict_get p0 (py "text") = Some (JStr t)
          /\ raw_text = strip t.
Proof.
  intros data raw. unfold reply_text. split.
  - destruct (getitem data (py "candidates")) as [c|] eqn:E1; [|discriminate].
    destruct (getitem0 c) as [c0|] eqn:E2; [|discriminate].
    destruct (getitem c0 (py "content")) as [ct|] eqn:E3; [|discriminate].
    destruct (getitem ct (py "parts")) as [ps|] eqn:E4; [|discriminate].
    destruct (getitem0 ps) as [p0|] eqn:E5; [|discriminate].
    destruct (getitem p0 (py "text")) as [t|] eqn:E6; [|discriminate].
    intros E7.
    apply getitem_Ret in E1, E3, E4, E6.
    destruct E1 as (d & -> & E1). destruct E3 as (c0d & -> & E3).
    destruct E4 as (ctd & -> & E4). destruct E6 as (p0d & -> & E6).
    apply str_strip_Ret in E7. destruct E7 as (t' & -> & ->).
    apply getitem0_Ret in E2, E5.
    destruct E2 as [(cs & ->)|(x & r & _ & Hx)]; [|discriminate].
    destruct E5 as [(ps' & ->)|(x & r & _ & Hx)]; [|discriminate].
    exists d, c0d, cs, ctd, p0d, ps', t'. repeat split; assumption.
  - intros (d & c0 & cs & ct & p0 & ps & t & -> & E1 & E2 & E3 & E4 & ->).
    cbn [getitem]. rewrite E1. cbn [getitem0 getitem]. rewrite E2.
    cbn [getitem]. rewrite E3. cbn [getitem0 getitem]. rewrite E4. reflexivity.
Qed.

(** ** [safe_extract_json] *)

Lemma lstrip_blank_prefix (ws s : pystr) :
  forallb isspace ws = true -> lstrip (ws ++ s) = lstrip s.
Proof.
  induction ws as [|c ws IH]; [reflexivity|]. cbn [forallb app lstrip].
  intros H. apply andb_true_iff in H. destruct H as [Hc Hws].
  rewrite Hc. now apply IH.
Qed.

Lemma lstrip_blank (ws : pystr) : forallb isspace ws = true -> lstrip ws = [].
Proof.
  intros H. rewrite <- (app_nil_r ws). now rewrite lstrip_blank_prefix.
Qed.

Lemma rstrip_blank_suffix (s ws : pystr) :
  forallb isspace ws = true -> rstrip (s ++ ws) = rstrip s.
Proof.
  intros H. unfold rstrip. rewrite rev_app_distr, lstrip_blank_prefix; [reflexivity|].
  rewrite forallb_forall in *. intros x Hx. apply H. now apply in_rev.
Qed.

Lemma lstrip_app_cases (a b : pystr) :
  (lstrip a = [] /\ lstrip (a ++ b) = lstrip b)
  \/ (lstrip a <> [] /\ lstrip (a ++ b) = lstrip a ++ b).
Proof.
  induction a as [|c a IH]; [left; split; reflexivity|].
  cbn [app lstrip]. destruct (isspace c); [exact IH|].
  right. split; [discriminate | reflexivity].
Qed.

Lemma lstrip_nonspace_head (s : pystr) :
  match lstrip s with
  | [] => True
  | c :: _ => isspace c = false
  end.
Proof.
  induction s as [|c s IH]; [exact I|]. cbn [lstrip].
  destruct (isspace c) eqn:E; [exact IH | exact E].
Qed.

Lemma strip_blank_around (ws1 s ws2 : pystr) :
  forallb isspace ws1 = true -> forallb isspace ws2 = true ->
  strip (ws1 ++ s ++ ws2) = strip s.
Proof.
  intros H1 H2. unfold strip. rewrite lstrip_blank_prefix by exact H1.
  destruct (lstrip_app_cases s ws2) as [[Hs ->]|[Hs ->]].
  - rewrite Hs, (lstrip_blank ws2 H2). reflexivity.
  - now apply rstrip_blank_suffix.
Qed.

(** X11.  White space before and after the reply never changes what
    [safe_extract_json] makes of it. *)
Theorem safe_extract_json_ignores_outer_blanks :
  forall (ws1 raw ws2 : pystr),
    forallb isspace ws1 = true ->
    forallb isspace ws2 = true ->
    safe_extract_json (ws1 ++ raw ++ ws2) = safe_extract_json raw.
Proof.
  intros ws1 raw ws2 H1 H2. rewrite !safe_extract_json_unfold.
  now rewrite strip_blank_around.
Qed.

Lemma safe_extract_json_ignores_outer_blanks_witness :
  safe_extract_json (py "  " ++ fenced Samples.summary_json ++ [newline; 9%N])
  = safe_extract_json (fenced Samples.summary_json).
Proof.
  apply (safe_extract_json_ignores_outer_blanks
           (py "  ") (fenced Samples.summary_json) [newline; 9%N]);
    reflexivity.
Defined.

Lemma isspace_not_j (c : pychar) :
  isspace c = true -> eq_ignorecase (ch "j") c = false.
Proof.
  intros Hc. destruct (eq_ignorecase (ch "j") c) eqn:E; [|reflexivity].
  exfalso. unfold eq_ignorecase in E.
  change (N.eqb (if ((65 <=? ch "j") && (ch "j" <=? 90))%N
                 then (ch "j" + 32)%N else ch "j") (ch "s")) with false in E.
  rewrite andb_false_l, orb_false_r in E.
  change (if ((65 <=? ch "j") && (ch "j" <=? 90))%N then (ch "j" + 32)%N else ch "j")
    with 106%N in E.
  apply N.eqb_eq in E.
  assert (Hj : c = 74%N \/ c = 106%N).
  { destruct ((65 <=? c) && (c <=? 90))%N; lia. }
  destruct Hj; subst c; discriminate.
Qed.

Lemma startswith_ignorecase_app (p a b : pystr) :
  startswith_ignorecase p a = true -> startswith_ignorecase p (a ++ b) = true.
Proof.
  revert a. induction p as [|x p IH]; intros a H; [reflexivity|].
  destruct a as [|y a]; [discriminate|]. cbn [app startswith_ignorecase] in *.
  apply andb_true_iff in H. destruct H as [H1 H2]. now rewrite H1, IH.
Qed.

(** X12.  A fenced block with nothing but white space around it is
    unwrapped whether the fence carries no tag or the tag [json] in any
    letter case, and whatever white space separates fence and text: for a
    text from brace to brace that [json.loads] decodes, the decoded value
    is returned. *)
Theorem fenced_block_with_optional_tag :
  forall (ws0 tag ws1 body ws2 ws3 : pystr) (v : json),
    forallb isspace ws0 = true -> forallb isspace ws1 = true ->
    forallb isspace ws2 = true -> forallb isspace ws3 = true ->
    tag = [] \/ (length tag = 4 /\ startswith_ignorecase (py "json") tag = true) ->
    loads (lbrace :: body ++ [rbrace]) = Ret v ->
    safe_extract_json
      (ws0 ++ (fence ++ tag ++ ws1 ++ (lbrace :: body ++ [rbrace]) ++ ws2 ++ fence)
       ++ ws3)
    = Ret v.
Proof.
  intros ws0 tag ws1 body ws2 ws3 v H0 H1 H2 H3 Htag Hv.
  rewrite safe_extract_json_unfold, strip_blank_around by assumption.
  set (t := lbrace :: body ++ [rbrace]) in *.
  assert (Hstrip : strip (fence ++ tag ++ ws1 ++ t ++ ws2 ++ fence)
                   = fence ++ tag ++ ws1 ++ t ++ ws2 ++ fence).
  { change (fence ++ tag ++ ws1 ++ t ++ ws2 ++ fence)
      with ([] ++ backtick :: ([backtick; backtick] ++ tag ++ ws1 ++ t ++ ws2 ++ fence)).
    replace ([backtick; backtick] ++ tag ++ ws1 ++ t ++ ws2 ++ fence)
      with (([backtick; backtick] ++ tag ++ ws1 ++ t ++ ws2 ++ [backtick; backtick])
            ++ backtick :: [])
      by (unfold fence; cbn [app]; repeat (rewrite <- ?app_assoc; cbn [app]); reflexivity).
    rewrite strip_sandwich by reflexivity. reflexivity. }
  rewrite Hstrip.
  change (startswith fence (fence ++ tag ++ ws1 ++ t ++ ws2 ++ fence)) with true.
  cbv iota.
  assert (Hopen : sub_open_fence (fence ++ tag ++ ws1 ++ t ++ ws2 ++ fence)
                  = t ++ ws2 ++ fence).
  { unfold sub_open_fence.
    change (startswith fence (fence ++ tag ++ ws1 ++ t ++ ws2 ++ fence)) with true.
    cbv iota zeta.
    change (skipn 3 (fence ++ tag ++ ws1 ++ t ++ ws2 ++ fence))
      with (tag ++ ws1 ++ t ++ ws2 ++ fence).
    assert (Hl : lstrip (ws1 ++ t ++ ws2 ++ fence) = t ++ ws2 ++ fence).
    { rewrite lstrip_blank_prefix by exact H1. reflexivity. }
    destruct Htag as [->|[Hlen Hci]].
    - cbn [app].
      assert (Hno : startswith_ignorecase (py "json") (ws1 ++ t ++ ws2 ++ fence) = false).
      { destruct ws1 as [|c ws1]; [reflexivity|].
        cbn [forallb] in H1. apply andb_true_iff in H1. destruct H1 as [Hc _].
        change (startswith_ignorecase (py "json") ((c :: ws1) ++ t ++ ws2 ++ fence))
          with (eq_ignorecase (ch "j") c
                && startswith_ignorecase (py "son") (ws1 ++ t ++ ws2 ++ fence)).
        now rewrite (isspace_not_j c Hc). }
      rewrite Hno. exact Hl.
    - rewrite (startswith_ignorecase_app _ _ _ Hci).
      destruct tag as [|a [|b [|c [|d [|x tag]]]]]; try discriminate.
      exact Hl. }
  rewrite Hopen.
  assert (Hclose : sub_close_fence (t ++ ws2 ++ fence) = t).
  { unfold sub_close_fence, endswith.
    replace (rev (t ++ ws2 ++ fence)) with (fence ++ rev (t ++ ws2))
      by (rewrite (app_assoc t ws2 fence), (rev_app_distr (t ++ ws2) fence); reflexivity).
    change (rev fence) with fence. rewrite startswith_app.
    replace (length (t ++ ws2 ++ fence) - 3) with (length (t ++ ws2))
      by (rewrite !length_app; simpl; lia).
    rewrite app_assoc, firstn_app, firstn_all, Nat.sub_diag. cbn [firstn].
    rewrite app_nil_r, rstrip_blank_suffix by exact H2.
    subst t. change (lbrace :: body ++ [rbrace]) with ((lbrace :: body) ++ rbrace :: []).
    rewrite rstrip_app_nonspace by reflexivity. reflexivity. }
  rewrite Hclose. unfold decode_or_slice. now rewrite Hv.
Qed.

Lemma fenced_block_with_optional_tag_witness :
  safe_extract_json
    ([newline] ++ (fence ++ py "JSON" ++ py "  " ++ Samples.summary_json
                   ++ [] ++ fence) ++ [newline])
  = Ret Samples.summary_object.
Proof.
  apply (fenced_block_with_optional_tag [newline] (py "JSON") (py "  ")
           Samples.summary_body [] [newline] Samples.summary_object);
    [reflexivity | reflexivity | reflexivity | reflexivity
     | right; split; reflexivity | vm_compute; reflexivity].
Defined.











(** ** [clean_html] *)

Lemma rstrip_idem (s : pystr) : rstrip (rstrip s) = rstrip s.
Proof. unfold rstrip. now rewrite rev_involutive, lstrip_idem. Qed.

Lemma lstrip_fixed_app (p q : pystr) :
  p <> [] -> lstrip p = p -> lstrip (p ++ q) = p ++ q.
Proof.
  intros Hp Hl. destruct (lstrip_app_cases p q) as [[H _]|[_ H]].
  - congruence.
  - now rewrite H, Hl.
Qed.

Lemma rstrip_fixed_app (q p : pystr) :
  p <> [] -> rstrip p = p -> rstrip (q ++ p) = q ++ p.
Proof.
  intros Hp Hr. unfold rstrip in *.
  assert (Hrev : lstrip (rev p) = rev p).
  { rewrite <- (rev_involutive (lstrip (rev p))), Hr. reflexivity. }
  rewrite rev_app_distr, lstrip_fixed_app; [|intros E; apply Hp|exact Hrev].
  - now rewrite rev_app_distr, !rev_involutive.
  - now rewrite <- (rev_involutive p), E.
Qed.

Lemma lstrip_suffix (z : pystr) : exists ws, z = ws ++ lstrip z.
Proof.
  induction z as [|c z [ws IH]]; [now exists []|]. cbn [lstrip].
  destruct (isspace c); [|now exists []].
  exists (c :: ws). cbn [app]. now rewrite <- IH.
Qed.

Lemma rstrip_keeps_head (s : pystr) :
  lstrip s = s -> lstrip (rstrip s) = rstrip s.
Proof.
  intros Hs.
  assert (Hsplit : exists ws, s = rstrip s ++ ws).
  { destruct (lstrip_suffix (rev s)) as [ws Hws]. exists (rev ws).
    unfold rstrip. rewrite <- rev_app_distr, <- Hws. now rewrite rev_involutive. }
  destruct Hsplit as [ws Hws].
  destruct (rstrip s) as [|c r] eqn:Er; [reflexivity|].
  rewrite Hws in Hs. cbn [app lstrip] in Hs |- *.
  destruct (isspace c); [|reflexivity].
  exfalso. pose proof (lstrip_length (r ++ ws)) as L. rewrite Hs in L. simpl in L. lia.
Qed.

Lemma strip_fixed (s : pystr) :
  lstrip (strip s) = strip s /\ rstrip (strip s) = strip s.
Proof.
  unfold strip. split.
  - apply rstrip_keeps_head, lstrip_idem.
  - apply rstrip_idem.
Qed.


Lemma join_trimmed (sep : pystr) (parts : list pystr) :
  Forall trimmed_piece parts -> parts <> [] -> trimmed_piece (join sep parts).
Proof.
  induction 1 as [|p rest Hp Hrest IH]; intros Hne; [congruence|].
  destruct rest as [|p' rest']; [exact Hp|].
  change (join sep (p :: p' :: rest')) with (p ++ sep ++ join sep (p' :: rest')).
  destruct Hp as (Hp0 & Hpl & Hpr).
  destruct (IH ltac:(discriminate)) as (Hj0 & Hjl & Hjr).
  repeat split.
  - destruct p; [congruence | discriminate].
  - now apply lstrip_fixed_app.
  - rewrite !app_assoc. now apply rstrip_fixed_app.
Qed.

Lemma get_text_pieces (nodes : list node) :
  Forall trimmed_piece (filter nonempty (map strip (flat_map strings nodes))).
Proof.
  apply Forall_forall. intros p Hp. apply filter_In in Hp. destruct Hp as [Hin Hne].
  apply in_map_iff in Hin. destruct Hin as (x & <- & _).
  destruct (strip_fixed x) as [Hl Hr]. repeat split; auto.
  intros E. rewrite E in Hne. discriminate.
Qed.

(** X14.  The cleaned text is made of pieces joined by line feeds; no
    piece is empty and none starts or ends with white space.  So the
    cleaned text itself never starts or ends with white space: stripping
    it, as [summarize] does before measuring it, changes nothing. *)
Theorem clean_html_is_trimmed :
  forall (html_parser : pystr -> soup) (html : pystr),
    (exists pieces,
       clean_html html_parser html = join [newline] pieces
       /\ Forall (fun p => p <> [] /\ lstrip p = p /\ rstrip p = p) pieces)
    /\ strip (clean_html html_parser html) = clean_html html_parser html.
Proof.
  intros hp html. unfold clean_html, get_text.
  set (pieces := filter nonempty (map strip (flat_map strings _))).
  assert (Hp : Forall trimmed_piece pieces) by apply get_text_pieces.
  split; [exists pieces; split; [reflexivity | exact Hp]|].
  destruct pieces as [|p rest] eqn:E; [reflexivity|].
  destruct (join_trimmed [newline] (p :: rest) Hp ltac:(discriminate)) as (_ & Hl & Hr).
  unfold strip. now rewrite Hl, Hr.
Qed.

Lemma find_in_unfold (name nm : pystr) a (c : list node) :
  find_in name (Tag nm a c)
  = if pystr_eqb nm name then Some (Tag nm a c) else soup_find name c.
Proof.
  cbn [find_in]. destruct (pystr_eqb nm name); [reflexivity|].
  induction c as [|x r IH]; [reflexivity|]. cbn [soup_find].
  destruct (find_in name x); [reflexivity | exact IH].
Qed.

Lemma soup_find_app (name : pystr) (a b : soup) :
  soup_find name (a ++ b)
  = match soup_find name a with
    | Some t => Some t
    | None => soup_find name b
    end.
Proof.
  induction a as [|x a IH]; [reflexivity|]. cbn [app soup_find].
  destruct (find_in name x); [reflexivity | exact IH].
Qed.

Lemma strings_drop_other (n : node) :
  flat_map strings (drop_other n) = strings n.
Proof.
  induction n as [nm a c IH|t|t] using node_induction; try reflexivity.
  cbn [drop_other flat_map strings]. rewrite app_nil_r.
  induction IH as [|x r Hx _ IHr]; [reflexivity|].
  cbn [flat_map]. now rewrite flat_map_app, Hx, IHr.
Qed.

Lemma strings_drop_other_all (l : list node) :
  flat_map strings (flat_map drop_other l) = flat_map strings l.
Proof.
  induction l as [|x r IH]; [reflexivity|].
  cbn [flat_map]. now rewrite flat_map_app, strings_drop_other, IH.
Qed.

Lemma decompose_drop_other (names : list pystr) (n : node) :
  flat_map (decompose names) (drop_other n)
  = flat_map drop_other (decompose names n).
Proof.
  induction n as [nm a c IH|t|t] using node_induction; try reflexivity.
  cbn [drop_other flat_map decompose]. rewrite app_nil_r.
  destruct (name_in names nm); [reflexivity|].
  cbn [flat_map drop_other]. rewrite app_nil_r. do 2 f_equal.
  induction IH as [|x r Hx _ IHr]; [reflexivity|].
  cbn [flat_map]. now rewrite !flat_map_app, Hx, IHr.
Qed.

Lemma decompose_all_drop_other (names : list pystr) (doc : soup) :
  decompose_all names (flat_map drop_other doc)
  = flat_map drop_other (decompose_all names doc).
Proof.
  unfold decompose_all. induction doc as [|x r IH]; [reflexivity|].
  cbn [flat_map]. now rewrite !flat_map_app, decompose_drop_other, IH.
Qed.

Lemma found_strings_drop_other (name : pystr) (n : node) :
  found_strings name (drop_other n) = found_strings name [n].
Proof.
  unfold found_strings.
  induction n as [nm a c IH|t|t] using node_induction; try reflexivity.
  cbn [drop_other soup_find]. rewrite !find_in_unfold.
  destruct (pystr_eqb nm name).
  - cbn [option_map contents]. now rewrite strings_drop_other_all.
  - assert (Hc : option_map (fun t => flat_map strings (contents t))
                   (soup_find name (flat_map drop_other c))
                 = option_map (fun t => flat_map strings (contents t))
                     (soup_find name c)).
    { induction IH as [|x r Hx _ IHr]; [reflexivity|].
      cbn [flat_map]. rewrite soup_find_app.
      change (soup_find name (x :: r))
        with (match find_in name x with Some t => Some t | None => soup_find name r end).
      cbn [soup_find] in Hx.
      destruct (soup_find name (drop_other x)) as [t1|];
        destruct (find_in name x) as [t2|]; cbn [option_map] in *;
        try discriminate; [exact Hx | exact IHr]. }
    destruct (soup_find name (flat_map drop_other c)) as [t1|];
      destruct (soup_find name c) as [t2|]; cbn [option_map] in *;
      try discriminate; [exact Hc | reflexivity].
Qed.

Lemma found_strings_drop_other_all (name : pystr) (doc : soup) :
  found_strings name (flat_map drop_other doc) = found_strings name doc.
Proof.
  unfold found_strings. induction doc as [|x r IH]; [reflexivity|].
  cbn [flat_map]. rewrite soup_find_app.
  pose proof (found_strings_drop_other name x) as Hx. unfold found_strings in Hx.
  cbn [soup_find] in Hx |- *.
  destruct (soup_find name (drop_other x)) as [t1|];
    destruct (find_in name x) as [t2|]; cbn [option_map] in *;
    try discriminate; [exact Hx | exact IH].
Qed.

Lemma main_content_strings (doc : soup) :
  flat_map strings (main_content doc)
  = match found_strings (py "article") doc with
    | Some l => l
    | None =>
      match found_strings (py "main") doc with
      | Some l => l
      | None =>
        match found_strings (py "body") doc with
        | Some l => l
        | None => flat_map strings doc
        end
      end
    end.
Proof.
  unfold main_content, found_strings.
  destruct (soup_find (py "article") doc); [reflexivity|].
  destruct (soup_find (py "main") doc); [reflexivity|].
  destruct (soup_find (py "body") doc); reflexivity.
Qed.

(** X15.  Comments, the doctype and the other strings [get_text] does not
    collect never reach the cleaned text, and never change which element
    the text is taken from: two inputs whose trees are equal once these
    strings are dropped are cleaned to the same text. *)
Theorem clean_html_ignores_comments :
  forall (html_parser : pystr -> soup) (html html' : pystr),
    flat_map drop_other (html_parser html) = flat_map drop_other (html_parser html') ->
    clean_html html_parser html = clean_html html_parser html'.
Proof.
  assert (H : forall doc,
            flat_map strings (main_content (decompose_all removed_names doc))
            = flat_map strings
                (main_content (decompose_all removed_names (flat_map drop_other doc)))).
  { intros doc. rewrite !main_content_strings, decompose_all_drop_other.
    now rewrite !found_strings_drop_other_all, strings_drop_other_all. }
  intros hp html html' Heq. unfold clean_html, get_text.
  now rewrite (H (hp html)), (H (hp html')), Heq.
Qed.

Lemma clean_html_ignores_comments_witness :
  clean_html Samples.two_page_parser [] = clean_html Samples.two_page_parser (py "x").
Proof.
  apply (clean_html_ignores_comments Samples.two_page_parser [] (py "x")).
  reflexivity.
Defined.

(** ** The self-hosted variant *)

Lemma rnd_crawl_url_calls (w : world) (url : pystr) :
  calls (Rnd.crawl_url w url) = [Crawl url]
  \/ calls (Rnd.crawl_url w url) = [Crawl url; HttpGet url 30].
Proof.
  unfold Rnd.crawl_url. run_io.
  destruct (crawler_arun w url) as [res|e]; simpl.
  - destruct (truthy (markdown res)); simpl; now left.
  - right. destruct (httpx_get w url); reflexivity.
Qed.

(** X16.  In rnd/gemma_crawl.py, when the crawler returns without raising,
    [crawl_url] makes no other call and hands back what the crawler
    gave: the markdown when it is not empty, else the cleaned HTML as it
    is, unparsed, possibly empty or [None].  With an empty crawl
    [summarize] therefore answers with the too-short failure after the
    crawl alone: no plain GET, no call of the model. *)
Theorem rnd_empty_crawl_is_too_short :
  forall str_of_exn (w : world) (url : pystr) (res : crawl_result),
    crawler_arun w (normalize_url url) = Ret res ->
    Rnd.crawl_url w (normalize_url url)
    = ([Crawl (normalize_url url)],
       Ret (match truthy (markdown res) with
            | Some md => Some md
            | None => cleaned_html res
            end))
    /\ (truthy (markdown res) = None ->
        truthy (cleaned_html res) = None ->
        Rnd.summarize str_of_exn w url
        = ([Crawl (normalize_url url)], Ret (Rnd.Failure Rnd.too_short_message))).
Proof.
  intros str w url res Hres.
  assert (Hc : Rnd.crawl_url w (normalize_url url)
               = ([Crawl (normalize_url url)],
                  Ret (match truthy (markdown res) with
                       | Some md => Some md
                       | None => cleaned_html res
                       end))).
  { unfold Rnd.crawl_url. run_io. rewrite Hres. cbv beta iota.
    destruct (truthy (markdown res)); reflexivity. }
  split; [exact Hc|].
  intros Hmd Hhtml. unfold Rnd.summarize, Rnd.summarize_body.
  cbv zeta. unfold bind at 1. rewrite Hc, Hmd.
  destruct (cleaned_html res) as [[|c h]|]; try discriminate; reflexivity.
Qed.

Lemma rnd_empty_crawl_witness :
  Rnd.summarize Samples.plain_str Samples.empty_crawl_only_world (py "example.com/a")
  = ([Crawl (py "https://example.com/a")], Ret (Rnd.Failure Rnd.too_short_message)).
Proof.
  apply (proj2 (rnd_empty_crawl_is_too_short Samples.plain_str
                  Samples.empty_crawl_only_world (py "example.com/a")
                  {| markdown := None; cleaned_html := None |} eq_refl));
    reflexivity.
Defined.






